(** * Locked-notarization example script: model and verification

    A shallow embedding of [src/index.ts].  The script is a linear,
    asynchronous orchestration of external collaborators (faucet, ledger
    client, notarization SDK, the clock and the console).  The collaborators
    are an interface ([Sdk]) over an arbitrary world state; the script is a
    computation in a small state-and-exception monad that threads the world,
    the journal of every call the script makes, and the process exit code. *)

From Stdlib Require Import ZArith Lia List String Ascii Bool DecimalString.
From Stdlib Require Import Strings.Byte.
From Stdlib Require Import Floats.SpecFloat.
Import ListNotations.

Set Implicit Arguments.

(** ** JavaScript values the script handles *)

(** What a [throw] or a rejected promise carries. *)
Inductive error : Type :=
| Error (message : string)        (* new Error(message) *)
| AssertionError                  (* thrown by a failing assert(...) *)
| TypeError (message : string).   (* property read on undefined *)

(** A completion: normal return / fulfilled promise, or throw / rejection. *)
Inductive completion (A : Type) : Type :=
| Normal (a : A)
| Throw (e : error).
Arguments Normal {A} a.
Arguments Throw {A} e.

(** ECMAScript Number values (IEEE 754 binary64); a finite value is the
    dyadic rational [m * 2^e]. *)
Inductive number : Type :=
| Fin (m e : Z)
| Infinity (negative : bool)
| NaN.

(** ** Number arithmetic

    ECMAScript evaluates [/] and [+] on Numbers as IEEE 754 binary64
    operations in round-to-nearest, ties-to-even mode: the exact rational
    result is computed and then rounded to the nearest representable value.
    [RN] is that rounding; signed zeros are not distinguished. *)

Local Open Scope Z_scope.

(** Round-half-even of the rational [n/d], [d > 0]. *)
Definition nearest_even (n d : Z) : Z :=
  let q := n / d in
  let r := n mod d in
  match 2 * r ?= d with
  | Lt => q
  | Gt => q + 1
  | Eq => if Z.even q then q else q + 1
  end.

(** The [L] with [2^(L-1) <= |n|/d < 2^L], for [n <> 0] and [d > 0]. *)
Definition magnitude (n d : Z) : Z :=
  let l := Z.log2 (Z.abs n) - Z.log2 d in
  let above := if 0 <=? l then d * 2 ^ l <=? Z.abs n
               else d <=? Z.abs n * 2 ^ (- l) in
  if above then l + 1 else l.

(** [d * 2^k <= n] as rationals. *)
Definition scaled_le (d k n : Z) : Prop :=
  if 0 <=? k then d * 2 ^ k <= n else d <= n * 2 ^ (- k).

Definition RN (n d : Z) : number :=
  if n =? 0 then Fin 0 0 else
  let e := Z.max (magnitude n d - 53) (-1074) in
  let m := if 0 <=? e then nearest_even n (d * 2 ^ e)
           else nearest_even (n * 2 ^ (- e)) d in
  if (971 <? e) || ((e =? 971) && (2 ^ 53 <=? Z.abs m))
  then Infinity (n <? 0)
  else Fin m e.

Definition Number_div (x y : number) : number :=
  match x, y with
  | Fin m1 e1, Fin m2 e2 =>
      if m2 =? 0 then (if m1 =? 0 then NaN else Infinity (m1 <? 0))
      else RN (Z.sgn m2 * m1 * 2 ^ Z.max (e1 - e2) 0)
              (Z.abs m2 * 2 ^ Z.max (e2 - e1) 0)
  | Fin _ _, Infinity _ => Fin 0 0
  | Infinity s, Fin m2 _ => Infinity (xorb s (m2 <? 0))
  | _, _ => NaN
  end.

Definition Number_add (x y : number) : number :=
  match x, y with
  | Fin m1 e1, Fin m2 e2 =>
      let e := Z.min e1 e2 in
      let n := m1 * 2 ^ (e1 - e) + m2 * 2 ^ (e2 - e) in
      RN (n * 2 ^ Z.max e 0) (2 ^ Z.max (- e) 0)
  | Infinity s, Fin _ _ | Fin _ _, Infinity s => Infinity s
  | Infinity s1, Infinity s2 => if Bool.eqb s1 s2 then Infinity s1 else NaN
  | _, _ => NaN
  end.

Definition Math_round (x : number) : number :=
  match x with
  | Fin m e =>
      if 0 <=? e then Fin (m * 2 ^ e) 0
      else Fin ((2 * m + 2 ^ (- e)) / 2 ^ (1 - e)) 0
  | _ => x
  end.

Definition delete_unlock_at (now : Z) : number :=
  Math_round (Number_add (Number_div (Fin now 0) (Fin 1000 0)) (Fin 86400 0)).

(** [Date.now()] returns a time value: an integral Number of milliseconds
    of magnitude at most 8.64e15 (ECMA-262, Time Values and Time Range). *)
Definition max_time_value : Z := 8640000000000000.

(** *** The same computation with the binary64 operations of the Standard
    Library's [SpecFloat], to compare with on concrete clock readings. *)

Definition of_spec_float (f : spec_float) : number :=
  match f with
  | S754_zero _ => Fin 0 0
  | S754_infinity s => Infinity s
  | S754_nan => NaN
  | S754_finite s m e => Fin (if s then Z.neg m else Z.pos m) e
  end.

Definition same_value (x y : number) : bool :=
  match x, y with
  | Fin m1 e1, Fin m2 e2 =>
      let e := Z.min e1 e2 in
      m1 * 2 ^ (e1 - e) =? m2 * 2 ^ (e2 - e)
  | Infinity s1, Infinity s2 => Bool.eqb s1 s2
  | NaN, NaN => true
  | _, _ => false
  end.

Definition binary64_of_Z (z : Z) : spec_float :=
  binary_normalize 53 1024 z 0 false.

Definition ieee_quotient (now : Z) : spec_float :=
  SFdiv 53 1024 (binary64_of_Z now) (binary64_of_Z 1000).

Definition ieee_sum (now : Z) : spec_float :=
  SFadd 53 1024 (ieee_quotient now) (binary64_of_Z 86400).

Definition agree (now : Z) : bool :=
  same_value (Number_div (Fin now 0) (Fin 1000 0))
             (of_spec_float (ieee_quotient now))
  && same_value (Number_add (Number_div (Fin now 0) (Fin 1000 0))
                            (Fin 86400 0))
                (of_spec_float (ieee_sum now)).

(** Clock readings to compare on: every millisecond of one second of
    November 2025, and a thousand readings spread over the whole time range
    on either side of the epoch. *)
Definition clock_samples : list Z :=
  map (fun k => 1762084800000 + Z.of_nat k) (seq 0 1000)
  ++ map (fun k => Z.of_nat k * 8639999999000 + Z.of_nat k) (seq 0 1001)
  ++ map (fun k => - (Z.of_nat k * 8639999999000 + Z.of_nat k)) (seq 0 1001).

Local Close Scope Z_scope.

(** ** SDK data types (shapes of [@iota/notarization] and [@iota/iota-sdk]) *)

Record TimeLock : Type := { type : string; args : option number }.

Record LockMetadata : Type :=
  { updateLock : TimeLock; deleteLock : TimeLock; transferLock : TimeLock }.

Record ImmutableMetadata : Type :=
  { createdAt : Z; description : option string; locking : option LockMetadata }.

Inductive Data : Type :=
| BytesData (bytes : list byte)
| StringData (text : string).

Record State : Type := { data : Data; metadata : option string }.

Record OnChainNotarization : Type :=
  { id : string;
    state : State;
    immutableMetadata : ImmutableMetadata;
    updatableMetadata : option string;
    lastStateChangeAt : Z;
    stateVersionCount : Z;
    method : string }.

Record Balance : Type := { coinType : string; totalBalance : string }.

Record Ed25519Keypair : Type := { secretKey : list byte }.
Record Ed25519KeypairSigner : Type := { keypair : Ed25519Keypair }.
Record IotaClient : Type := { url : string }.
Record NotarizationClientReadOnly : Type :=
  { iotaClient : IotaClient; packageId : string }.
Record NotarizationClient : Type :=
  { readOnly : NotarizationClientReadOnly; signer : Ed25519KeypairSigner }.

(** The fluent builder: each [with...] call fills one slot; nothing reaches
    the network before [buildAndExecute]. *)
Record NotarizationBuilder : Type :=
  { b_method : string;
    b_state : option State;
    b_deleteLock : option TimeLock;
    b_immutableDescription : option string;
    b_updatableMetadata : option string;
    b_finished : bool }.

Definition createLocked_builder : NotarizationBuilder :=
  {| b_method := "Locked"; b_state := None; b_deleteLock := None;
     b_immutableDescription := None; b_updatableMetadata := None;
     b_finished := false |}.

Definition withBytesState (bytes : list byte) (meta : string)
    (b : NotarizationBuilder) : NotarizationBuilder :=
  {| b_method := b_method b;
     b_state := Some {| data := BytesData bytes; metadata := Some meta |};
     b_deleteLock := b_deleteLock b;
     b_immutableDescription := b_immutableDescription b;
     b_updatableMetadata := b_updatableMetadata b;
     b_finished := b_finished b |}.

Definition withStringState (text : string) (meta : string)
    (b : NotarizationBuilder) : NotarizationBuilder :=
  {| b_method := b_method b;
     b_state := Some {| data := StringData text; metadata := Some meta |};
     b_deleteLock := b_deleteLock b;
     b_immutableDescription := b_immutableDescription b;
     b_updatableMetadata := b_updatableMetadata b;
     b_finished := b_finished b |}.

Definition withUnlockAt (time_sec : number) : TimeLock :=
  {| type := "UnlockAt"; args := Some time_sec |}.

Definition withDeleteLock (lock : TimeLock)
    (b : NotarizationBuilder) : NotarizationBuilder :=
  {| b_method := b_method b;
     b_state := b_state b;
     b_deleteLock := Some lock;
     b_immutableDescription := b_immutableDescription b;
     b_updatableMetadata := b_updatableMetadata b;
     b_finished := b_finished b |}.

Definition withImmutableDescription (text : string)
    (b : NotarizationBuilder) : NotarizationBuilder :=
  {| b_method := b_method b;
     b_state := b_state b;
     b_deleteLock := b_deleteLock b;
     b_immutableDescription := Some text;
     b_updatableMetadata := b_updatableMetadata b;
     b_finished := b_finished b |}.

Definition withUpdatableMetadata (text : string)
    (b : NotarizationBuilder) : NotarizationBuilder :=
  {| b_method := b_method b;
     b_state := b_state b;
     b_deleteLock := b_deleteLock b;
     b_immutableDescription := b_immutableDescription b;
     b_updatableMetadata := Some text;
     b_finished := b_finished b |}.

Definition finish (b : NotarizationBuilder) : NotarizationBuilder :=
  {| b_method := b_method b;
     b_state := b_state b;
     b_deleteLock := b_deleteLock b;
     b_immutableDescription := b_immutableDescription b;
     b_updatableMetadata := b_updatableMetadata b;
     b_finished := true |}.

(** ** The journal of a run *)

(** Arguments of [console.log] and results of awaited calls. *)
Inductive Val : Type :=
| VUndefined
| VStr (s : string)
| VNum (n : Z)
| VOptStr (s : option string)
| VLocking (l : option LockMetadata)
| VBalance (b : Balance)
| VReadOnly (c : NotarizationClientReadOnly)
| VClient (c : NotarizationClient)
| VNotarization (n : OnChainNotarization)
| VError (e : error).

(** Synchronous calls into the runtime or the SDK. *)
Inductive SyncCall : Type :=
| new_IotaClient (url : string)
| Ed25519Keypair_generate_call
| new_Ed25519KeypairSigner
| Date_now_call (ms : Z)
| new_TextEncoder
| createLocked_call
| withStringState_call (text : string) (meta : string)
| withBytesState_call (bytes : list byte) (meta : string)
| withUnlockAt_call (time_sec : number)
| withDeleteLock_call (lock : TimeLock)
| withImmutableDescription_call (text : string)
| withUpdatableMetadata_call (text : string)
| finish_call.

(** Promise-returning calls; the script awaits every one of them. *)
Inductive AsyncCall : Type :=
| requestIotaFromFaucetV0_call (host recipient : string)
| getBalance_call (owner : string)
| NotarizationClientReadOnly_create_call
| NotarizationClient_create_call
| buildAndExecute_call (b : NotarizationBuilder).

Inductive Event : Type :=
| Sync (c : SyncCall)
| Issued (c : AsyncCall)                       (* the promise is created *)
| Settled (c : AsyncCall) (r : completion Val) (* the await resumes *)
| Asserted (holds : bool)                      (* assert(value) *)
| console_log (args : list Val)
| console_error (args : list Val).

(** Rendering of a [Uint8Array] inside a template literal: the elements in
    decimal, joined by commas. *)
Definition decimal (b : byte) : string :=
  NilEmpty.string_of_uint (N.to_uint (Byte.to_N b)).

Fixpoint Uint8Array_toString (bytes : list byte) : string :=
  match bytes with
  | [] => EmptyString
  | [b] => decimal b
  | b :: rest => decimal b ++ "," ++ Uint8Array_toString rest
  end.

Definition newline : string := String (ascii_of_nat 10) EmptyString.
Definition dquote : string := String (ascii_of_nat 34) EmptyString.

(** ** The external collaborators and the process *)

Section Workflow.

(** The state of everything outside the script: ledger, faucet, clock,
    random source. *)
Variable World : Type.

Record Sdk : Type :=
  { getNetwork_url : string -> string;
    getFaucetHost : string -> string;
    Ed25519Keypair_generate : World -> Ed25519Keypair * World;
    keyId : Ed25519KeypairSigner -> string;
    requestIotaFromFaucetV0 :
      string -> string -> World -> completion unit * World;
    getBalance : IotaClient -> string -> World -> completion Balance * World;
    NotarizationClientReadOnly_create :
      IotaClient -> World -> completion NotarizationClientReadOnly * World;
    NotarizationClient_create :
      NotarizationClientReadOnly -> Ed25519KeypairSigner -> World ->
      completion NotarizationClient * World;
    Date_now : World -> Z * World;
    buildAndExecute :
      NotarizationBuilder -> NotarizationClient -> World ->
      completion OnChainNotarization * World;
    Data_toString : Data -> string;
    Data_toBytes : Data -> list byte }.

Record Process : Type :=
  { world : World;
    journal : list Event;
    exitCode : option Z }.   (* process.exitCode, undefined at start *)

Definition js (A : Type) : Type := Process -> completion A * Process.

Definition ret {A} (a : A) : js A := fun p => (Normal a, p).

Definition throw {A} (e : error) : js A := fun p => (Throw e, p).

Definition bind {A B} (c : js A) (k : A -> js B) : js B :=
  fun p =>
    match c p with
    | (Normal a, p') => k a p'
    | (Throw e, p') => (Throw e, p')
    end.

(** [promise.catch(handler)]. *)
Definition catch {A} (c : js A) (handler : error -> js A) : js A :=
  fun p =>
    match c p with
    | (Normal a, p') => (Normal a, p')
    | (Throw e, p') => handler e p'
    end.

Definition emit (ev : Event) : js unit :=
  fun p =>
    (Normal tt,
     {| world := world p; journal := journal p ++ [ev];
        exitCode := exitCode p |}).

(** A synchronous call whose result the script computes with. *)
Definition sync {A} (c : SyncCall) (a : A) : js A :=
  bind (emit (Sync c)) (fun _ => ret a).

(** A total synchronous call that reads or advances the world. *)
Definition ask {A} (label : A -> SyncCall) (f : World -> A * World) : js A :=
  fun p =>
    let (a, w) := f (world p) in
    (Normal a,
     {| world := w; journal := journal p ++ [Sync (label a)];
        exitCode := exitCode p |}).

(** [await f(...)]: the promise is created and the task suspends until it
    settles; a rejection resumes the task with a throw. *)
Definition await {A} (c : AsyncCall) (inj : A -> Val)
    (f : World -> completion A * World) : js A :=
  fun p =>
    let (r, w) := f (world p) in
    (r,
     {| world := w;
        journal := journal p ++
          [Issued c;
           Settled c match r with
                     | Normal a => Normal (inj a)
                     | Throw e => Throw e
                     end];
        exitCode := exitCode p |}).

(** [assert(value)] from node's strict assert module. *)
Definition assert (value : bool) : js unit :=
  bind (emit (Asserted value))
       (fun _ => if value then ret tt else throw AssertionError).

Definition log (args : list Val) : js unit := emit (console_log args).

Declare Scope js_scope.
Delimit Scope js_scope with js.
Notation "x <- c ;; k" := (bind c (fun x => k))
  (at level 61, c at next level, right associativity) : js_scope.
Notation "c ;; k" := (bind c (fun _ => k))
  (at level 61, right associativity) : js_scope.

(** ** The script *)

Variable sdk : Sdk.

Local Open Scope string_scope.
Local Open Scope js_scope.

Definition networkId : string := "testnet".

Definition requestFunds (address : string) : js unit :=
  await (requestIotaFromFaucetV0_call (getFaucetHost sdk networkId) address)
        (fun _ => VUndefined)
        (requestIotaFromFaucetV0 sdk (getFaucetHost sdk networkId) address).

(** The [if (balance.totalBalance === "0") ... else ...] statement of
    [getFundedNotarizationClient]. *)
Definition balance_check (balance : Balance) (signer : Ed25519KeypairSigner)
  : js unit :=
  if totalBalance balance =? "0"
  then throw (Error "Balance is still 0")
  else log [VStr ("Received gas from faucet: " ++ totalBalance balance
                  ++ " for owner " ++ keyId sdk signer)].

Definition getFundedNotarizationClient (iotaClient : IotaClient)
  : js NotarizationClient :=
  keypair <- ask (fun _ => Ed25519Keypair_generate_call)
                 (Ed25519Keypair_generate sdk) ;;
  signer <- sync new_Ed25519KeypairSigner {| keypair := keypair |} ;;
  requestFunds (keyId sdk signer) ;;
  balance <- await (getBalance_call (keyId sdk signer)) VBalance
                   (getBalance sdk iotaClient (keyId sdk signer)) ;;
  balance_check balance signer ;;
  notarizationClientReadOnly <-
    await NotarizationClientReadOnly_create_call VReadOnly
          (NotarizationClientReadOnly_create sdk iotaClient) ;;
  await NotarizationClient_create_call VClient
        (NotarizationClient_create sdk notarizationClientReadOnly signer).

(** [notarization.immutableMetadata.locking.<lock>]: reading a property of
    [undefined] throws. *)
Definition locking_of (notarization : OnChainNotarization) : js LockMetadata :=
  match locking (immutableMetadata notarization) with
  | Some l => ret l
  | None => throw (TypeError "Cannot read properties of undefined")
  end.

Definition is_defined {A} (o : option A) : bool :=
  match o with Some _ => true | None => false end.

Definition state_bytes : list byte :=
  [x0e; xff; x00; x7d; x40; x57; x0b; x72; x6c; x64].

Definition createLocked : js unit :=
  log [VStr "Creating a simple locked notarization example"] ;;
  iotaClient <- sync (new_IotaClient (getNetwork_url sdk networkId))
                     {| url := getNetwork_url sdk networkId |} ;;
  notarizationClient <- getFundedNotarizationClient iotaClient ;;
  now <- ask Date_now_call (Date_now sdk) ;;
  sync new_TextEncoder tt ;;
  log [VStr "Building a simple locked notarization and publish it to the IOTA network"] ;;
  b <- sync createLocked_call createLocked_builder ;;
  b <- sync (withBytesState_call state_bytes
               "Document metadata e.g., version specifier")
            (withBytesState state_bytes
               "Document metadata e.g., version specifier" b) ;;
  lock <- sync (withUnlockAt_call (delete_unlock_at now))
               (withUnlockAt (delete_unlock_at now)) ;;
  b <- sync (withDeleteLock_call lock) (withDeleteLock lock b) ;;
  b <- sync (withImmutableDescription_call "This can not be changed any more")
            (withImmutableDescription "This can not be changed any more" b) ;;
  b <- sync (withUpdatableMetadata_call "This can be updated")
            (withUpdatableMetadata "This can be updated" b) ;;
  b <- sync finish_call (finish b) ;;
  notarization <- await (buildAndExecute_call b) VNotarization
                        (buildAndExecute sdk b notarizationClient) ;;
  log [VStr (newline ++ "âœ… Locked notarization created successfully!")] ;;
  log [VStr (newline ++ "----------------------------------------------------")] ;;
  log [VStr "----- Important Notarization Properties ------------"] ;;
  log [VStr "----------------------------------------------------"] ;;
  log [VStr "Notarization ID: "; VStr (id notarization)] ;;
  log [VStr "Notarization Method: "; VStr (method notarization)] ;;
  log [VStr ("State data as string: " ++ dquote
             ++ Data_toString sdk (data (state notarization)) ++ dquote
             ++ " or as bytes: ["
             ++ Uint8Array_toString (Data_toBytes sdk (data (state notarization)))
             ++ "]")] ;;
  log [VStr "State metadata: "; VOptStr (metadata (state notarization))] ;;
  log [VStr "Immutable description: ";
       VOptStr (description (immutableMetadata notarization))] ;;
  log [VStr "Immutable locking metadata: ";
       VLocking (locking (immutableMetadata notarization))] ;;
  log [VStr "Updatable metadata: "; VOptStr (updatableMetadata notarization)] ;;
  log [VStr "State version count: "; VNum (stateVersionCount notarization)] ;;
  log [VStr (newline ++ "----------------------------------------------------")] ;;
  log [VStr "----- All Notarization Properties      -------------"] ;;
  log [VStr "----------------------------------------------------"] ;;
  log [VStr "Notarization: "; VNotarization notarization] ;;
  assert (method notarization =? "Locked") ;;
  assert (is_defined (locking (immutableMetadata notarization))) ;;
  l <- locking_of notarization ;;
  assert (type (updateLock l) =? "UntilDestroyed") ;;
  l <- locking_of notarization ;;
  assert (type (transferLock l) =? "UntilDestroyed") ;;
  log [VStr (newline ++ "ðŸ”’ The notarization is Locked and cannot be updated or transferred until it is destroyed")] ;;
  log [VStr "ðŸ—‘ï¸ The notarization can only be destroyed after the delete lock expires"].

Definition main (example : option string) : js unit :=
  createLocked.

(** The module body: [main().catch(error => console.error(..., error))]. *)
Definition script : js unit :=
  catch (main None)
        (fun error =>
           emit (console_error
                   [VStr "Error creating locked notarization:"; VError error])).

Definition start (w : World) : Process :=
  {| world := w; journal := []; exitCode := None |}.

(** Node's exit status once the event loop drains: a rejection nobody
    handled ends the process with status 1; otherwise the status is
    [process.exitCode], or 0 when that was never set. *)
Definition exit_status (r : completion unit * Process) : Z :=
  match fst r with
  | Throw _ => 1%Z
  | Normal _ =>
      match exitCode (snd r) with
      | Some c => c
      | None => 0%Z
      end
  end.

End Workflow.

Arguments delete_unlock_at : simpl never.

(** ** The paths of the script

    The journal of a run is made of phases; [Run] lists the eleven ways
    through [createLocked], each with the result and the journal it leaves. *)

Section Paths.

Variable World : Type.
Variable sdk : Sdk World.

Local Open Scope string_scope.

Definition owner_of (kp : Ed25519Keypair) : string :=
  keyId sdk {| keypair := kp |}.

Definition faucet_request (kp : Ed25519Keypair) : AsyncCall :=
  requestIotaFromFaucetV0_call (getFaucetHost sdk networkId) (owner_of kp).

Definition funding (kp : Ed25519Keypair) (r : completion Val) : list Event :=
  [console_log [VStr "Creating a simple locked notarization example"];
   Sync (new_IotaClient (getNetwork_url sdk networkId));
   Sync Ed25519Keypair_generate_call;
   Sync new_Ed25519KeypairSigner;
   Issued (faucet_request kp);
   Settled (faucet_request kp) r].

Definition balance_query (kp : Ed25519Keypair) (r : completion Val)
  : list Event :=
  [Issued (getBalance_call (owner_of kp));
   Settled (getBalance_call (owner_of kp)) r].

Definition funded (kp : Ed25519Keypair) (bal : Balance) : list Event :=
  funding kp (Normal VUndefined)
  ++ balance_query kp (Normal (VBalance bal))
  ++ [console_log [VStr ("Received gas from faucet: " ++ totalBalance bal
                         ++ " for owner " ++ owner_of kp)]].

Definition readOnly_creation (r : completion Val) : list Event :=
  [Issued NotarizationClientReadOnly_create_call;
   Settled NotarizationClientReadOnly_create_call r].

Definition client_creation (r : completion Val) : list Event :=
  [Issued NotarizationClient_create_call;
   Settled NotarizationClient_create_call r].

Definition connected (kp : Ed25519Keypair) (bal : Balance)
    (ro : NotarizationClientReadOnly) (c : NotarizationClient) : list Event :=
  funded kp bal
  ++ readOnly_creation (Normal (VReadOnly ro))
  ++ client_creation (Normal (VClient c)).

(** The builder as [finish()] hands it to [buildAndExecute]. *)
Definition built (now : Z) : NotarizationBuilder :=
  finish
    (withUpdatableMetadata "This can be updated"
       (withImmutableDescription "This can not be changed any more"
          (withDeleteLock (withUnlockAt (delete_unlock_at now))
             (withBytesState state_bytes
                "Document metadata e.g., version specifier"
                createLocked_builder)))).

Definition building (now : Z) : list Event :=
  [Sync (Date_now_call now);
   Sync new_TextEncoder;
   console_log [VStr "Building a simple locked notarization and publish it to the IOTA network"];
   Sync createLocked_call;
   Sync (withBytesState_call state_bytes
           "Document metadata e.g., version specifier");
   Sync (withUnlockAt_call (delete_unlock_at now));
   Sync (withDeleteLock_call (withUnlockAt (delete_unlock_at now)));
   Sync (withImmutableDescription_call "This can not be changed any more");
   Sync (withUpdatableMetadata_call "This can be updated");
   Sync finish_call].

Definition submission (now : Z) (r : completion Val) : list Event :=
  [Issued (buildAndExecute_call (built now));
   Settled (buildAndExecute_call (built now)) r].

Definition report (n : OnChainNotarization) : list Event :=
  [console_log [VStr (newline ++ "âœ… Locked notarization created successfully!")];
   console_log [VStr (newline ++ "----------------------------------------------------")];
   console_log [VStr "----- Important Notarization Properties ------------"];
   console_log [VStr "----------------------------------------------------"];
   console_log [VStr "Notarization ID: "; VStr (id n)];
   console_log [VStr "Notarization Method: "; VStr (method n)];
   console_log
     [VStr ("State data as string: " ++ dquote
            ++ Data_toString sdk (data (state n)) ++ dquote
            ++ " or as bytes: ["
            ++ Uint8Array_toString (Data_toBytes sdk (data (state n)))
            ++ "]")];
   console_log [VStr "State metadata: "; VOptStr (metadata (state n))];
   console_log [VStr "Immutable description: ";
                VOptStr (description (immutableMetadata n))];
   console_log [VStr "Immutable locking metadata: ";
                VLocking (locking (immutableMetadata n))];
   console_log [VStr "Updatable metadata: "; VOptStr (updatableMetadata n)];
   console_log [VStr "State version count: "; VNum (stateVersionCount n)];
   console_log [VStr (newline ++ "----------------------------------------------------")];
   console_log [VStr "----- All Notarization Properties      -------------"];
   console_log [VStr "----------------------------------------------------"];
   console_log [VStr "Notarization: "; VNotarization n]].

Definition submitted (kp : Ed25519Keypair) (bal : Balance)
    (ro : NotarizationClientReadOnly) (c : NotarizationClient) (now : Z)
    (n : OnChainNotarization) : list Event :=
  connected kp bal ro c ++ building now
  ++ submission now (Normal (VNotarization n)) ++ report n.

Definition farewell : list Event :=
  [console_log [VStr (newline ++ "ðŸ”’ The notarization is Locked and cannot be updated or transferred until it is destroyed")];
   console_log [VStr "ðŸ—‘ï¸ The notarization can only be destroyed after the delete lock expires"]].

Inductive Run : completion unit -> list Event -> Prop :=
| faucet_rejects kp e :
    Run (Throw e) (funding kp (Throw e))
| balance_rejects kp e :
    Run (Throw e) (funding kp (Normal VUndefined) ++ balance_query kp (Throw e))
| balance_is_zero kp bal :
    totalBalance bal = "0" ->
    Run (Throw (Error "Balance is still 0"))
        (funding kp (Normal VUndefined)
         ++ balance_query kp (Normal (VBalance bal)))
| readOnly_rejects kp bal e :
    totalBalance bal <> "0" ->
    Run (Throw e) (funded kp bal ++ readOnly_creation (Throw e))
| client_rejects kp bal ro e :
    totalBalance bal <> "0" ->
    Run (Throw e)
        (funded kp bal ++ readOnly_creation (Normal (VReadOnly ro))
         ++ client_creation (Throw e))
| submit_rejects kp bal ro c now e :
    totalBalance bal <> "0" ->
    Run (Throw e)
        (connected kp bal ro c ++ building now ++ submission now (Throw e))
| method_differs kp bal ro c now n :
    totalBalance bal <> "0" ->
    method n <> "Locked" ->
    Run (Throw AssertionError)
        (submitted kp bal ro c now n ++ [Asserted false])
| locking_missing kp bal ro c now n :
    totalBalance bal <> "0" ->
    method n = "Locked" ->
    locking (immutableMetadata n) = None ->
    Run (Throw AssertionError)
        (submitted kp bal ro c now n ++ [Asserted true; Asserted false])
| updateLock_differs kp bal ro c now n l :
    totalBalance bal <> "0" ->
    method n = "Locked" ->
    locking (immutableMetadata n) = Some l ->
    type (updateLock l) <> "UntilDestroyed" ->
    Run (Throw AssertionError)
        (submitted kp bal ro c now n
         ++ [Asserted true; Asserted true; Asserted false])
| transferLock_differs kp bal ro c now n l :
    totalBalance bal <> "0" ->
    method n = "Locked" ->
    locking (immutableMetadata n) = Some l ->
    type (updateLock l) = "UntilDestroyed" ->
    type (transferLock l) <> "UntilDestroyed" ->
    Run (Throw AssertionError)
        (submitted kp bal ro c now n
         ++ [Asserted true; Asserted true; Asserted true; Asserted false])
| verified kp bal ro c now n l :
    totalBalance bal <> "0" ->
    method n = "Locked" ->
    locking (immutableMetadata n) = Some l ->
    type (updateLock l) = "UntilDestroyed" ->
    type (transferLock l) = "UntilDestroyed" ->
    Run (Normal tt)
        (submitted kp bal ro c now n
         ++ [Asserted true; Asserted true; Asserted true; Asserted true]
         ++ farewell).

End Paths.

(** ** Observations on a run *)

Section Observations.

Variable World : Type.
Variable sdk : Sdk World.

(** What [createLocked()] settles with, and the journal it leaves. *)
Definition outcome (w : World) : completion unit :=
  fst (createLocked sdk (start w)).

Definition trace (w : World) : list Event :=
  journal (snd (createLocked sdk (start w))).

(** The same for the whole module body, handler included. *)
Definition process_end (w : World) : completion unit * Process World :=
  script sdk (start w).

End Observations.

Definition count (p : Event -> bool) (j : list Event) : nat :=
  List.length (filter p j).

Definition is_builder_created (ev : Event) : bool :=
  match ev with Sync createLocked_call => true | _ => false end.

Definition is_finish (ev : Event) : bool :=
  match ev with Sync finish_call => true | _ => false end.

Definition is_submit (ev : Event) : bool :=
  match ev with Issued (buildAndExecute_call _) => true | _ => false end.

Definition is_bytes_state (ev : Event) : bool :=
  match ev with Sync (withBytesState_call _ _) => true | _ => false end.

Definition is_string_state (ev : Event) : bool :=
  match ev with Sync (withStringState_call _ _) => true | _ => false end.

Definition is_issued (ev : Event) : bool :=
  match ev with Issued _ => true | _ => false end.

(** Any call on the notarization builder or on [TimeLock]. *)
Definition is_builder_call (ev : Event) : bool :=
  match ev with
  | Sync createLocked_call
  | Sync (withStringState_call _ _)
  | Sync (withBytesState_call _ _)
  | Sync (withUnlockAt_call _)
  | Sync (withDeleteLock_call _)
  | Sync (withImmutableDescription_call _)
  | Sync (withUpdatableMetadata_call _)
  | Sync finish_call => true
  | _ => false
  end.

Definition is_console_error (ev : Event) : bool :=
  match ev with console_error _ => true | _ => false end.

(** The values the [assert] calls of a run were given, in order. *)
Fixpoint assertions (j : list Event) : list bool :=
  match j with
  | [] => []
  | Asserted b :: rest => b :: assertions rest
  | _ :: rest => assertions rest
  end.

(** A list of checks as a sequence of [assert]s evaluates it: up to and
    including the first that fails. *)
Fixpoint until_false (checks : list bool) : list bool :=
  match checks with
  | [] => []
  | true :: rest => true :: until_false rest
  | false :: _ => [false]
  end.

Definition lock_is_UntilDestroyed (pick : LockMetadata -> TimeLock)
    (n : OnChainNotarization) : bool :=
  match locking (immutableMetadata n) with
  | Some l => String.eqb (type (pick l)) "UntilDestroyed"
  | None => false
  end.

(** The four conditions of lines 98-103, as the script evaluates them. *)
Definition four_checks (n : OnChainNotarization) : list bool :=
  [String.eqb (method n) "Locked";
   is_defined (locking (immutableMetadata n));
   lock_is_UntilDestroyed updateLock n;
   lock_is_UntilDestroyed transferLock n].

Definition method_is_Locked (n : OnChainNotarization) : Prop :=
  method n = "Locked"%string.

Definition locking_is_present (n : OnChainNotarization) : Prop :=
  locking (immutableMetadata n) <> None.

Definition updateLock_is_UntilDestroyed (n : OnChainNotarization) : Prop :=
  exists l, locking (immutableMetadata n) = Some l
            /\ type (updateLock l) = "UntilDestroyed"%string.

Definition transferLock_is_UntilDestroyed (n : OnChainNotarization) : Prop :=
  exists l, locking (immutableMetadata n) = Some l
            /\ type (transferLock l) = "UntilDestroyed"%string.

(** Every awaited call settles before anything else happens: an [Issued]
    is immediately followed by the [Settled] of the same call. *)
Fixpoint sequential (j : list Event) : Prop :=
  match j with
  | [] => True
  | Issued c :: rest =>
      match rest with
      | Settled c' _ :: rest' => c = c' /\ sequential rest'
      | _ => False
      end
  | Settled _ _ :: _ => False
  | _ :: rest => sequential rest
  end.

(** The steps of section 2 of the specification, as journal events. *)
Inductive Step : Type :=
| KeyPairGenerated
| FaucetRequested | FaucetCompleted
| BalanceQueried | BalanceReturned
| ReadOnlyClientRequested | ReadOnlyClientCreated
| SigningClientRequested | SigningClientCreated
| BuilderInvoked | BuilderFinished
| TransactionSubmitted | TransactionSettled.

Definition step_of (ev : Event) : option Step :=
  match ev with
  | Sync Ed25519Keypair_generate_call => Some KeyPairGenerated
  | Issued (requestIotaFromFaucetV0_call _ _) => Some FaucetRequested
  | Settled (requestIotaFromFaucetV0_call _ _) _ => Some FaucetCompleted
  | Issued (getBalance_call _) => Some BalanceQueried
  | Settled (getBalance_call _) _ => Some BalanceReturned
  | Issued NotarizationClientReadOnly_create_call => Some ReadOnlyClientRequested
  | Settled NotarizationClientReadOnly_create_call _ => Some ReadOnlyClientCreated
  | Issued NotarizationClient_create_call => Some SigningClientRequested
  | Settled NotarizationClient_create_call _ => Some SigningClientCreated
  | Sync createLocked_call => Some BuilderInvoked
  | Sync finish_call => Some BuilderFinished
  | Issued (buildAndExecute_call _) => Some TransactionSubmitted
  | Settled (buildAndExecute_call _) _ => Some TransactionSettled
  | _ => None
  end.

Fixpoint steps (j : list Event) : list Step :=
  match j with
  | [] => []
  | ev :: rest =>
      match step_of ev with
      | Some s => s :: steps rest
      | None => steps rest
      end
  end.

Definition program_order : list Step :=
  [KeyPairGenerated; FaucetRequested; FaucetCompleted;
   BalanceQueried; BalanceReturned;
   ReadOnlyClientRequested; ReadOnlyClientCreated;
   SigningClientRequested; SigningClientCreated;
   BuilderInvoked; BuilderFinished;
   TransactionSubmitted; TransactionSettled].

(** [a] occurs, and later [b] occurs. *)
Definition precedes (a b : Step) (l : list Step) : Prop :=
  exists l1 l2 l3, l = l1 ++ a :: l2 ++ b :: l3.

(** Events that end the workflow: a rejection, a zero balance, a failed
    assertion. *)
Definition is_failure (ev : Event) : bool :=
  match ev with
  | Settled _ (Throw _) => true
  | Settled (getBalance_call _) (Normal (VBalance bal)) =>
      String.eqb (totalBalance bal) "0"
  | Asserted false => true
  | _ => false
  end.

(** No event follows a failure. *)
Fixpoint stops_at_failure (j : list Event) : bool :=
  match j with
  | [] => true
  | ev :: rest =>
      if is_failure ev then match rest with [] => true | _ => false end
      else stops_at_failure rest
  end.

(** A computation that never writes [process.exitCode]. *)
Definition keeps_exitCode {World A : Type} (c : js World A) : Prop :=
  forall p, exitCode (snd (c p)) = exitCode p.

(** ** Test doubles for the collaborators *)

Section Doubles.

Local Open Scope string_scope.

Record Mock : Type :=
  { faucet_answer : completion unit;
    balance_answer : completion Balance;
    readOnly_answer : completion NotarizationClientReadOnly;
    client_answer : completion NotarizationClient;
    clock : Z;
    submit_answer : NotarizationBuilder -> completion OnChainNotarization }.

Definition mock_sdk (m : Mock) : Sdk unit :=
  {| getNetwork_url := fun _ => "https://api.testnet.iota.cafe";
     getFaucetHost := fun _ => "https://faucet.testnet.iota.cafe";
     Ed25519Keypair_generate := fun w => ({| secretKey := [x01; x02] |}, w);
     keyId := fun _ => "0xa11ce";
     requestIotaFromFaucetV0 := fun _ _ w => (faucet_answer m, w);
     getBalance := fun _ _ w => (balance_answer m, w);
     NotarizationClientReadOnly_create := fun _ w => (readOnly_answer m, w);
     NotarizationClient_create := fun _ _ w => (client_answer m, w);
     Date_now := fun w => (clock m, w);
     buildAndExecute := fun b _ w => (submit_answer m b, w);
     Data_toString := fun d =>
       match d with BytesData b => string_of_list_byte b | StringData s => s end;
     Data_toBytes := fun d =>
       match d with BytesData b => b | StringData s => list_byte_of_string s end |}.

Definition until_destroyed : TimeLock :=
  {| type := "UntilDestroyed"; args := None |}.

Definition no_lock : TimeLock := {| type := "None"; args := None |}.

(** The record a ledger returns for a builder, with chosen update and
    transfer locks. *)
Definition ledger_record (update transfer : TimeLock) (b : NotarizationBuilder)
  : OnChainNotarization :=
  {| id := "0x5eed";
     state := match b_state b with
              | Some s => s
              | None => {| data := StringData EmptyString; metadata := None |}
              end;
     immutableMetadata :=
       {| createdAt := 1762084800;
          description := b_immutableDescription b;
          locking :=
            Some {| updateLock := update;
                    deleteLock := match b_deleteLock b with
                                  | Some l => l
                                  | None => no_lock
                                  end;
                    transferLock := transfer |} |};
     updatableMetadata := b_updatableMetadata b;
     lastStateChangeAt := 1762084800;
     stateVersionCount := 0;
     method := b_method b |}.

Definition a_client : NotarizationClient :=
  {| readOnly :=
       {| iotaClient := {| url := "https://api.testnet.iota.cafe" |};
          packageId := "0x2" |};
     signer := {| keypair := {| secretKey := [x01; x02] |} |} |}.

Definition a_balance (amount : string) : Balance :=
  {| coinType := "0x2::iota::IOTA"; totalBalance := amount |}.

(** Everything answers as on a healthy testnet. *)
Definition healthy : Mock :=
  {| faucet_answer := Normal tt;
     balance_answer := Normal (a_balance "10000000000");
     readOnly_answer := Normal (readOnly a_client);
     client_answer := Normal a_client;
     clock := 1762084800123;
     submit_answer := fun b => Normal (ledger_record until_destroyed until_destroyed b) |}.

Definition with_balance (amount : string) : Mock :=
  {| faucet_answer := Normal tt;
     balance_answer := Normal (a_balance amount);
     readOnly_answer := readOnly_answer healthy;
     client_answer := client_answer healthy;
     clock := clock healthy;
     submit_answer := submit_answer healthy |}.

(** The faucet has not credited the address yet. *)
Definition slow_faucet : Mock := with_balance "0".

(** Funded, but the package lookup of the read-only client fails. *)
Definition node_down : Mock :=
  {| faucet_answer := Normal tt;
     balance_answer := Normal (a_balance "10000000000");
     readOnly_answer := Throw (Error "fetch failed");
     client_answer := client_answer healthy;
     clock := clock healthy;
     submit_answer := submit_answer healthy |}.

(** The ledger returns a record whose method is not [Locked]. *)
Definition dynamic_record : Mock :=
  {| faucet_answer := Normal tt;
     balance_answer := Normal (a_balance "10000000000");
     readOnly_answer := readOnly_answer healthy;
     client_answer := client_answer healthy;
     clock := clock healthy;
     submit_answer := fun b =>
       Normal (ledger_record until_destroyed until_destroyed
                 {| b_method := "Dynamic"; b_state := b_state b;
                    b_deleteLock := b_deleteLock b;
                    b_immutableDescription := b_immutableDescription b;
                    b_updatableMetadata := b_updatableMetadata b;
                    b_finished := b_finished b |}) |}.

(** What the healthy run submits and gets back. *)
Definition submitted_builder : NotarizationBuilder := built (clock healthy).

Definition returned_record : OnChainNotarization :=
  ledger_record until_destroyed until_destroyed submitted_builder.

End Doubles.

(** ** Recording what the collaborators receive

    The journal shows what the script asks for; to see which client, signer
    and builder each collaborator is handed, the collaborators are wrapped
    so that every call also notes its arguments in the world. *)

Inductive Received : Type :=
| faucet_received (host recipient : string)
| getBalance_received (client : IotaClient) (owner : string)
| ReadOnly_create_received (client : IotaClient)
| Client_create_received (readOnly : NotarizationClientReadOnly)
    (signer : Ed25519KeypairSigner)
| buildAndExecute_received (b : NotarizationBuilder)
    (client : NotarizationClient).

Definition spy (World : Type) (sdk : Sdk World)
  : Sdk (World * list Received) :=
  {| getNetwork_url := getNetwork_url sdk;
     getFaucetHost := getFaucetHost sdk;
     Ed25519Keypair_generate := fun s =>
       let (kp, w) := Ed25519Keypair_generate sdk (fst s) in (kp, (w, snd s));
     keyId := keyId sdk;
     requestIotaFromFaucetV0 := fun host recipient s =>
       let (r, w) := requestIotaFromFaucetV0 sdk host recipient (fst s) in
       (r, (w, snd s ++ [faucet_received host recipient]));
     getBalance := fun client owner s =>
       let (r, w) := getBalance sdk client owner (fst s) in
       (r, (w, snd s ++ [getBalance_received client owner]));
     NotarizationClientReadOnly_create := fun client s =>
       let (r, w) := NotarizationClientReadOnly_create sdk client (fst s) in
       (r, (w, snd s ++ [ReadOnly_create_received client]));
     NotarizationClient_create := fun ro signer s =>
       let (r, w) := NotarizationClient_create sdk ro signer (fst s) in
       (r, (w, snd s ++ [Client_create_received ro signer]));
     Date_now := fun s =>
       let (now, w) := Date_now sdk (fst s) in (now, (w, snd s));
     buildAndExecute := fun b client s =>
       let (r, w) := buildAndExecute sdk b client (fst s) in
       (r, (w, snd s ++ [buildAndExecute_received b client]));
     Data_toString := Data_toString sdk;
     Data_toBytes := Data_toBytes sdk |}.

Section Recorded.

Variable World : Type.
Variable sdk : Sdk World.

(** What the collaborators received during the run from [w], in order. *)
Definition received (w : World) : list Received :=
  snd (world (snd (createLocked (spy sdk) (start (w, []))))).

(** The signer the run makes from the key pair it generates. *)
Definition generated_signer (w : World) : Ed25519KeypairSigner :=
  {| keypair := fst (Ed25519Keypair_generate sdk w) |}.

(** The ledger client the run constructs. *)
Definition ledger_client : IotaClient :=
  {| url := getNetwork_url sdk networkId |}.

End Recorded.

Definition is_clock_read (ev : Event) : bool :=
  match ev with Sync (Date_now_call _) => true | _ => false end.

Definition is_console_log (ev : Event) : bool :=
  match ev with console_log _ => true | _ => false end.

Definition is_faucet_request (ev : Event) : bool :=
  match ev with
  | Issued (requestIotaFromFaucetV0_call _ _) => true
  | _ => false
  end.


(** What the ledger of [dynamic_record] returns to the healthy submission. *)
Definition dynamic_returned : OnChainNotarization :=
  ledger_record until_destroyed until_destroyed
    {| b_method := "Dynamic"%string;
       b_state := b_state submitted_builder;
       b_deleteLock := b_deleteLock submitted_builder;
       b_immutableDescription := b_immutableDescription submitted_builder;
       b_updatableMetadata := b_updatableMetadata submitted_builder;
       b_finished := b_finished submitted_builder |}.

(** Reading a decimal rendering back. *)
Definition undecimal (s : string) : option byte :=
  match NilEmpty.uint_of_string s with
  | Some u => Byte.of_N (N.of_uint u)
  | None => None
  end.

Fixpoint has_comma (s : string) : bool :=
  match s with
  | EmptyString => false
  | String c rest => Ascii.eqb c ","%char || has_comma rest
  end.

(** ** Facts about the Number operations *)

Section NumberFacts.

Local Open Scope Z_scope.

Lemma nearest_even_bound n d :
  0 < d -> 2 * Z.abs (nearest_even n d * d - n) <= d.
Proof.
  intros Hd. unfold nearest_even.
  pose proof (Z.div_mod n d ltac:(lia)) as Hn.
  pose proof (Z.mod_pos_bound n d Hd) as Hr.
  destruct (Z.compare_spec (2 * (n mod d)) d);
    [destruct (Z.even (n / d))| |]; lia.
Qed.

Lemma nearest_even_exact n d :
  0 < d -> n mod d = 0 -> nearest_even n d * d = n.
Proof.
  intros Hd Hr. unfold nearest_even.
  pose proof (Z.div_mod n d ltac:(lia)) as Hn.
  rewrite Hr. change (2 * 0) with 0.
  destruct (Z.compare_spec 0 d); lia.
Qed.

Lemma magnitude_le n d K :
  n <> 0 -> 0 < d -> 0 <= K -> Z.abs n < d * 2 ^ K -> magnitude n d <= K.
Proof.
  intros Hn Hd HK Hlt. unfold magnitude.
  destruct (Z.log2_spec (Z.abs n) ltac:(lia)) as [Ha _].
  destruct (Z.log2_spec d Hd) as [_ Hb].
  pose proof (Z.log2_nonneg (Z.abs n)) as Ha0.
  pose proof (Z.log2_nonneg d) as Hb0.
  set (a := Z.log2 (Z.abs n)) in *. set (b := Z.log2 d) in *.
  assert (Hl : a - b <= K).
  { destruct (Z_le_gt_dec (a - b) K) as [|Hgt]; [assumption|exfalso].
    assert (2 ^ (Z.succ b + K) <= 2 ^ a) by (apply Z.pow_le_mono_r; lia).
    rewrite Z.pow_add_r in H by lia.
    assert (0 < 2 ^ K) by (apply Z.pow_pos_nonneg; lia).
    nia. }
  destruct (Z.eq_dec (a - b) K) as [E|E].
  - rewrite E. destruct (Z.leb_spec 0 K); [|lia].
    destruct (Z.leb_spec (d * 2 ^ K) (Z.abs n)); lia.
  - destruct (if 0 <=? a - b then _ else _); lia.
Qed.

Lemma pow2_split a b : 0 <= a -> 0 <= b -> 2 ^ (a + b) = 2 ^ a * 2 ^ b.
Proof. intros. apply Z.pow_add_r; assumption. Qed.

Lemma pow2_pos k : 0 <= k -> 0 < 2 ^ k.
Proof. intros. apply Z.pow_pos_nonneg; lia. Qed.

(** The magnitude is exact: [2^(L-1) <= |n|/d < 2^L]. *)
Lemma magnitude_spec n d :
  n <> 0 -> 0 < d ->
  scaled_le d (magnitude n d - 1) (Z.abs n)
  /\ ~ scaled_le d (magnitude n d) (Z.abs n).
Proof.
  intros Hn Hd. unfold magnitude, scaled_le.
  destruct (Z.log2_spec (Z.abs n) ltac:(lia)) as [Ha1 Ha2].
  destruct (Z.log2_spec d Hd) as [Hb1 Hb2].
  pose proof (Z.log2_nonneg (Z.abs n)) as Ha0.
  pose proof (Z.log2_nonneg d) as Hb0.
  set (a := Z.log2 (Z.abs n)) in *. set (b := Z.log2 d) in *.
  set (N := Z.abs n) in *.
  rewrite Z.pow_succ_r in Ha2, Hb2 by lia.
  destruct (Z.leb_spec 0 (a - b)) as [Hl|Hl].
  - (* l >= 0 *)
    assert (Ea : 2 ^ a = 2 ^ b * 2 ^ (a - b))
      by (rewrite <- pow2_split by lia; f_equal; lia).
    pose proof (pow2_pos Hl) as Hp.
    destruct (Z.leb_spec (d * 2 ^ (a - b)) N) as [Ht|Ht].
    + replace (a - b + 1 - 1) with (a - b) by lia.
      destruct (Z.leb_spec 0 (a - b)); [|lia].
      destruct (Z.leb_spec 0 (a - b + 1)); [|lia].
      split; [exact Ht|].
      replace (a - b + 1) with (Z.succ (a - b)) by lia.
      rewrite Z.pow_succ_r by lia. nia.
    + destruct (Z.leb_spec 0 (a - b)); [|lia].
      split; [|lia].
      destruct (Z.leb_spec 0 (a - b - 1)) as [H1|H1].
      * assert (E1 : 2 ^ (a - b) = 2 * 2 ^ (a - b - 1)).
        { replace (a - b) with (Z.succ (a - b - 1)) at 1 by lia.
          apply Z.pow_succ_r; lia. }
        pose proof (pow2_pos H1). nia.
      * replace (a - b) with 0 in * by lia.
        replace (- (0 - 1)) with 1 by lia. change (2 ^ 1) with 2.
        rewrite Z.pow_0_r in *. lia.
  - (* l < 0 *)
    assert (Eb : 2 ^ b = 2 ^ a * 2 ^ (- (a - b)))
      by (rewrite <- pow2_split by lia; f_equal; lia).
    assert (Hp : 0 < 2 ^ (- (a - b))) by (apply pow2_pos; lia).
    destruct (Z.leb_spec d (N * 2 ^ (- (a - b)))) as [Ht|Ht].
    + replace (a - b + 1 - 1) with (a - b) by lia.
      destruct (Z.leb_spec 0 (a - b)); [lia|].
      split; [exact Ht|].
      destruct (Z.leb_spec 0 (a - b + 1)) as [H1|H1].
      * replace (a - b + 1) with 0 by lia. rewrite Z.pow_0_r.
        replace (- (a - b)) with 1 in * by lia. change (2 ^ 1) with 2 in *.
        lia.
      * assert (E1 : 2 ^ (- (a - b)) = 2 * 2 ^ (- (a - b + 1))).
        { replace (- (a - b)) with (Z.succ (- (a - b + 1))) at 1 by lia.
          apply Z.pow_succ_r; lia. }
        assert (0 < 2 ^ (- (a - b + 1))) by (apply pow2_pos; lia).
        nia.
    + destruct (Z.leb_spec 0 (a - b)); [lia|].
      destruct (Z.leb_spec 0 (a - b - 1)); [lia|].
      split; [|lia].
      assert (E1 : 2 ^ (- (a - b - 1)) = 2 * 2 ^ (- (a - b))).
      { replace (- (a - b - 1)) with (Z.succ (- (a - b))) by lia.
        apply Z.pow_succ_r; lia. }
      nia.
Qed.

Lemma scaled_le_shift d k n j :
  0 <= j -> scaled_le d k n <-> scaled_le d (k + j) (n * 2 ^ j).
Proof.
  intros Hj. unfold scaled_le.
  pose proof (pow2_pos Hj) as Pj.
  destruct (Z.leb_spec 0 k) as [Hk|Hk]; destruct (Z.leb_spec 0 (k + j)) as [Hkj|Hkj];
    try lia.
  - rewrite pow2_split by lia. pose proof (pow2_pos Hk). split; intros; nia.
  - assert (E : 2 ^ j = 2 ^ (- k) * 2 ^ (k + j))
      by (rewrite <- pow2_split by lia; f_equal; lia).
    rewrite E. assert (0 < 2 ^ (k + j)) by (apply pow2_pos; lia).
    assert (0 < 2 ^ (- k)) by (apply pow2_pos; lia).
    split; intros; nia.
  - assert (E : 2 ^ (- k) = 2 ^ j * 2 ^ (- (k + j)))
      by (rewrite <- pow2_split by lia; f_equal; lia).
    rewrite E, Z.mul_assoc. reflexivity.
Qed.

(** Mantissa of a quotient between two powers of two. *)
Lemma nearest_even_range n d lo hi :
  0 < d -> 0 <= lo -> d * lo <= Z.abs n -> Z.abs n <= d * hi ->
  lo <= Z.abs (nearest_even n d) <= hi.
Proof.
  intros Hd Hlo Hl Hh. pose proof (@nearest_even_bound n d Hd) as B.
  set (m := nearest_even n d) in *. nia.
Qed.

(** [RN] rounds to binary64: the result has a mantissa of at most 53 bits
    (normalised unless the exponent is the least one), an exponent in the
    range of the format, and lies within half a unit in the last place of
    [n/d]; [nearest_even] sends ties to the even mantissa. *)
Lemma RN_is_binary64 n d m e :
  n <> 0 -> 0 < d -> RN n d = Fin m e ->
  -1074 <= e <= 971
  /\ Z.abs m <= 2 ^ 53
  /\ (2 ^ 52 <= Z.abs m \/ e = -1074)
  /\ (e = 971 -> Z.abs m < 2 ^ 53)
  /\ (if 0 <=? e then 2 * Z.abs (m * (d * 2 ^ e) - n) <= d * 2 ^ e
      else 2 * Z.abs (m * d - n * 2 ^ (- e)) <= d).
Proof.
  intros Hn Hd. unfold RN. destruct (Z.eqb_spec n 0); [contradiction|].
  destruct (@magnitude_spec n d Hn Hd) as [Lo Hi].
  set (L := magnitude n d) in *.
  set (e0 := Z.max (L - 53) (-1074)).
  set (m0 := if 0 <=? e0 then nearest_even n (d * 2 ^ e0)
             else nearest_even (n * 2 ^ (- e0)) d).
  destruct ((971 <? e0) || ((e0 =? 971) && (2 ^ 53 <=? Z.abs m0))) eqn:Ov;
    [discriminate|].
  intros E. injection E as <- <-.
  apply orb_false_elim in Ov. destruct Ov as [O1 O2].
  apply Z.ltb_ge in O1.
  assert (He : -1074 <= e0 <= 971) by lia.
  assert (Hexp : 0 <= 53 + e0 - L) by lia.
  split; [exact He|].
  assert (Hm : Z.abs m0 <= 2 ^ 53 /\ (2 ^ 52 <= Z.abs m0 \/ e0 = -1074)
               /\ (if 0 <=? e0 then 2 * Z.abs (m0 * (d * 2 ^ e0) - n) <= d * 2 ^ e0
                   else 2 * Z.abs (m0 * d - n * 2 ^ (- e0)) <= d)).
  { unfold m0. destruct (Z.leb_spec 0 e0) as [H0|H0].
    - (* e0 >= 0, so L >= 53 and e0 = L - 53 *)
      assert (EL : L = e0 + 53) by lia.
      assert (Pe : 0 < 2 ^ e0) by (apply pow2_pos; lia).
      unfold scaled_le in Lo, Hi.
      destruct (Z.leb_spec 0 (L - 1)); [|lia]. destruct (Z.leb_spec 0 L); [|lia].
      replace (L - 1) with (e0 + 52) in Lo by lia. rewrite EL in Hi.
      rewrite pow2_split in Lo, Hi by lia.
      assert (Dpos : 0 < d * 2 ^ e0) by nia.
      pose proof (@nearest_even_bound n (d * 2 ^ e0) Dpos) as B.
      assert (Hlo : d * 2 ^ e0 * 2 ^ 52 <= Z.abs n) by lia.
      assert (Hhi : Z.abs n <= d * 2 ^ e0 * 2 ^ 53) by lia.
      destruct (@nearest_even_range n (d * 2 ^ e0) (2 ^ 52) (2 ^ 53)
                  Dpos ltac:(lia) Hlo Hhi) as [R1 R2].
      split; [exact R2|]. split; [left; exact R1 | exact B].
    - (* e0 < 0: the numerator is scaled by 2^(-e0) *)
      assert (Pe : 0 < 2 ^ (- e0)) by (apply pow2_pos; lia).
      pose proof (@nearest_even_bound (n * 2 ^ (- e0)) d Hd) as B.
      assert (An : Z.abs (n * 2 ^ (- e0)) = Z.abs n * 2 ^ (- e0))
        by (rewrite Z.abs_mul, (Z.abs_eq (2 ^ (- e0))); lia).
      (* upper bound: |n| 2^(-e0) < d 2^(L - e0) <= d 2^53 *)
      assert (Up : Z.abs n * 2 ^ (- e0) <= d * 2 ^ 53).
      { destruct (Z_le_gt_dec (d * 2 ^ 53) (Z.abs n * 2 ^ (- e0)))
          as [C|C]; [|lia].
        exfalso. apply Hi.
        apply (proj2 (@scaled_le_shift d L (Z.abs n) (- e0) ltac:(lia))).
        unfold scaled_le. destruct (Z.leb_spec 0 (L + - e0)) as [H1|H1].
        - assert (2 ^ (L + - e0) <= 2 ^ 53)
            by (apply Z.pow_le_mono_r; lia).
          nia.
        - assert (0 < 2 ^ (- (L + - e0))) by (apply pow2_pos; lia).
          assert (0 < 2 ^ 53) by (apply pow2_pos; lia).
          nia. }
      split; [|split; [|exact B]].
      + destruct (@nearest_even_range (n * 2 ^ (- e0)) d 0 (2 ^ 53)
                    Hd ltac:(lia) ltac:(lia) ltac:(lia)) as [_ R2].
        exact R2.
      + destruct (Z.eq_dec e0 (-1074)) as [|Hn0]; [right; assumption|left].
        assert (EL : L = e0 + 53) by lia.
        assert (Lo' : d * 2 ^ 52 <= Z.abs n * 2 ^ (- e0)).
        { apply (proj1 (@scaled_le_shift d (L - 1) (Z.abs n) (- e0)
                          ltac:(lia))) in Lo.
          unfold scaled_le in Lo.
          replace (L - 1 + - e0) with 52 in Lo by lia.
          exact Lo. }
        destruct (@nearest_even_range (n * 2 ^ (- e0)) d (2 ^ 52) (2 ^ 53)
                    Hd ltac:(lia) ltac:(lia) ltac:(lia)) as [R1 _].
        exact R1. }
  destruct Hm as (M1 & M2 & M3).
  split; [exact M1|]. split; [exact M2|]. split; [|exact M3].
  intros E971. fold m0 in O2. rewrite E971 in O2.
  change (971 =? 971) with true in O2. cbn [andb] in O2.
  apply Z.leb_gt in O2. exact O2.
Qed.

Lemma RN_spec n d K :
  0 < d -> 0 <= K <= 53 -> Z.abs n < d * 2 ^ K ->
  exists m e,
    RN n d = Fin m e /\ e <= 0 /\
    2 ^ (54 - K) * Z.abs (m * d - n * 2 ^ (- e)) <= d * 2 ^ (- e) /\
    ((n * 2 ^ (53 - K)) mod d = 0 -> m * d = n * 2 ^ (- e)).
Proof.
  intros Hd HK Hlt. unfold RN.
  destruct (Z.eqb_spec n 0) as [->|Hn].
  { exists 0, 0. cbn [Z.opp]. rewrite Z.pow_0_r. repeat split; lia. }
  pose proof (@magnitude_le n d K Hn Hd (proj1 HK) Hlt) as HL.
  set (e := Z.max (magnitude n d - 53) (-1074)).
  assert (He : e <= K - 53) by lia.
  assert (He' : -1074 <= e) by lia.
  assert (HP : 2 ^ (53 - K) * 2 ^ (- e - (53 - K)) = 2 ^ (- e))
    by (rewrite <- Z.pow_add_r by lia; f_equal; lia).
  assert (HP1 : 0 < 2 ^ (53 - K)) by (apply Z.pow_pos_nonneg; lia).
  assert (HP2 : 0 < 2 ^ (- e - (53 - K))) by (apply Z.pow_pos_nonneg; lia).
  assert (H54 : 2 ^ (54 - K) = 2 * 2 ^ (53 - K)).
  { replace (54 - K) with (Z.succ (53 - K)) by lia. apply Z.pow_succ_r. lia. }
  set (m := if 0 <=? e then nearest_even n (d * 2 ^ e)
            else nearest_even (n * 2 ^ (- e)) d).
  assert (Hm : m = nearest_even (n * 2 ^ (- e)) d).
  { unfold m. destruct (Z.leb_spec 0 e); [|reflexivity].
    replace e with 0 by lia. cbn [Z.opp]. rewrite Z.pow_0_r. f_equal; lia. }
  destruct (Z.ltb_spec 971 e); [lia|].
  destruct (Z.eqb_spec e 971); [lia|]. cbn [orb andb].
  exists m, e. split; [reflexivity|]. split; [lia|]. rewrite Hm. split.
  - pose proof (@nearest_even_bound (n * 2 ^ (- e)) d Hd) as Hb.
    rewrite H54. set (X := Z.abs (_ - _)) in *.
    assert (2 ^ (53 - K) * (2 * X) <= 2 ^ (53 - K) * d)
      by (apply Z.mul_le_mono_nonneg_l; lia).
    assert (2 ^ (53 - K) * d * 1 <= 2 ^ (53 - K) * d * 2 ^ (- e - (53 - K)))
      by (apply Z.mul_le_mono_nonneg_l; nia).
    rewrite <- HP. lia.
  - intros Hdiv. apply nearest_even_exact; [assumption|].
    rewrite <- HP, Z.mul_assoc.
    rewrite <- Z.mul_mod_idemp_l by lia. rewrite Hdiv. apply Z.mod_0_l. lia.
Qed.

Lemma Number_div_1000 t : Number_div (Fin t 0) (Fin 1000 0) = RN t 1000.
Proof.
  unfold Number_div. change (1000 =? 0) with false. cbv iota.
  change (Z.sgn 1000) with 1. change (2 ^ Z.max (0 - 0) 0) with 1.
  change (Z.abs 1000 * 1) with 1000.
  f_equal. lia.
Qed.

Lemma Number_add_86400 m e :
  e <= 0 -> Number_add (Fin m e) (Fin 86400 0) = RN (m + 86400 * 2 ^ (- e)) (2 ^ (- e)).
Proof.
  intros He. unfold Number_add.
  rewrite Z.min_l, Z.max_r, Z.max_l by lia.
  rewrite Z.sub_diag, Z.pow_0_r, Z.sub_0_l. f_equal; lia.
Qed.

Lemma Math_round_floor m e :
  e <= 0 -> Math_round (Fin m e) = Fin ((2 * m + 2 ^ (- e)) / (2 * 2 ^ (- e))) 0.
Proof.
  intros He. unfold Math_round. destruct (Z.leb_spec 0 e).
  - replace e with 0 by lia. cbn [Z.opp]. rewrite Z.pow_0_r. f_equal.
    change (2 * 1) with 2. rewrite Z.mul_1_r.
    apply Z.div_unique_pos with (r := 1); lia.
  - replace (1 - e) with (Z.succ (- e)) by lia.
    rewrite Z.pow_succ_r by lia. reflexivity.
Qed.

(** Two roundings at magnitude below 2^43 stay within 2000/2048 of a
    millisecond tick. *)
Lemma two_roundings t m1 m2 P1 P2 :
  0 < P1 -> 0 < P2 ->
  2048 * Z.abs (m1 * 1000 - t * P1) <= 1000 * P1 ->
  2048 * Z.abs (m2 * P1 - (m1 + 86400 * P1) * P2) <= P1 * P2 ->
  2048 * Z.abs (1000 * m2 - (t + 86400000) * P2) <= 2000 * P2.
Proof.
  intros HP1 HP2 F1 F2.
  set (A := m2 * P1 - (m1 + 86400 * P1) * P2) in *.
  set (B := m1 * 1000 - t * P1) in *.
  assert (E : (1000 * m2 - (t + 86400000) * P2) * P1 = 1000 * A + P2 * B)
    by (unfold A, B; ring).
  apply Z.mul_le_mono_pos_r with (p := P1); [assumption|].
  rewrite <- Z.mul_assoc, <- (Z.abs_eq P1) at 1 by lia.
  rewrite <- Z.abs_mul, E.
  pose proof (Z.abs_triangle (1000 * A) (P2 * B)) as T.
  rewrite !Z.abs_mul in T.
  rewrite (Z.abs_eq 1000), (Z.abs_eq P2) in T by lia.
  assert (P2 * (2048 * Z.abs B) <= P2 * (1000 * P1))
    by (apply Z.mul_le_mono_nonneg_l; lia).
  lia.
Qed.

(** For every time value the two binary64 roundings cancel under
    [Math.round]: the result is the exact quotient rounded half up. *)
Lemma delete_unlock_at_value t :
  Z.abs t <= max_time_value ->
  delete_unlock_at t = Fin ((t + 86400500) / 1000) 0.
Proof.
  unfold max_time_value. intros Ht. unfold delete_unlock_at.
  rewrite Number_div_1000.
  destruct (@RN_spec t 1000 43) as (m1 & e1 & -> & He1 & F1 & X1); [lia..|].
  change (2 ^ (54 - 43)) with 2048 in F1. change (2 ^ (53 - 43)) with 1024 in X1.
  rewrite Number_add_86400 by assumption.
  assert (HP1 : 0 < 2 ^ (- e1)) by (apply Z.pow_pos_nonneg; lia).
  set (P1 := 2 ^ (- e1)) in *.
  destruct (@RN_spec (m1 + 86400 * P1) P1 43) as (m2 & e2 & -> & He2 & F2 & X2);
    [lia | lia | |].
  { change (2 ^ 43) with 8796093022208.
    assert (t * P1 <= 8640000000000000 * P1)
      by (apply Z.mul_le_mono_nonneg_r; lia).
    assert (-8640000000000000 * P1 <= t * P1)
      by (apply Z.mul_le_mono_nonneg_r; lia).
    lia. }
  change (2 ^ (54 - 43)) with 2048 in F2. change (2 ^ (53 - 43)) with 1024 in X2.
  rewrite Math_round_floor by assumption.
  assert (HP2 : 0 < 2 ^ (- e2)) by (apply Z.pow_pos_nonneg; lia).
  set (P2 := 2 ^ (- e2)) in *.
  pose proof (@two_roundings t m1 m2 P1 P2 HP1 HP2 F1 F2) as G.
  f_equal. symmetry.
  pose proof (Z.div_mod (t + 86400500) 1000 ltac:(lia)) as Hk.
  pose proof (Z.mod_pos_bound (t + 86400500) 1000 ltac:(lia)) as Hr.
  set (k := (t + 86400500) / 1000) in *. set (r := (t + 86400500) mod 1000) in *.
  destruct (Z.eq_dec r 0) as [Hr0|Hr0].
  - (* the exact value is a half-integer: both operations are exact *)
    assert (E1 : m1 * 1000 = t * P1).
    { apply X1. replace (t * 1024) with ((1024 * k - 88474112) * 1000) by lia.
      apply Z.mod_mul. lia. }
    assert (Et : t * P1 = (1000 * k - 86400500) * P1) by (f_equal; lia).
    assert (E2 : m2 * P1 = (m1 + 86400 * P1) * P2).
    { apply X2.
      replace ((m1 + 86400 * P1) * 1024) with ((512 * (2 * k - 1)) * P1) by lia.
      apply Z.mod_mul. lia. }
    assert (E3 : (2 * m2 + P2) * P1 = (2 * P2 * k) * P1) by nia.
    apply Z.mul_reg_r in E3; [|lia]. rewrite E3.
    rewrite Z.mul_comm. symmetry. apply Z.div_mul. lia.
  - assert (Et : (t + 86400000) * P2 = (1000 * k + r - 500) * P2)
      by (f_equal; lia).
    assert (1 * P2 <= r * P2) by (apply Z.mul_le_mono_nonneg_r; lia).
    assert (r * P2 <= 999 * P2) by (apply Z.mul_le_mono_nonneg_r; lia).
    apply Z.div_unique_pos with (r := 2 * m2 + P2 - 2 * P2 * k); lia.
Qed.

(** The model and the Standard Library's binary64 operations give the same
    quotient and the same sum at sample clock readings, among them the ends
    of the time range and readings on and next to a half second. *)
Lemma agrees_with_binary64 :
  forallb agree
    [0; 1; 7; 499; 500; 501; 999; 1000; 123456789;
     1762084800123; 1762084800499; 1762084800500; 1762084800501;
     4503599627370497; 8639999999999499; 8639999999999500;
     8639999999999501; 8640000000000000;
     -1; -500; -86399500; -86400000; -86400500; -1762084800499;
     -8640000000000000] = true.
Proof. vm_compute. reflexivity. Qed.

Lemma agrees_with_binary64_on_samples :
  forallb agree clock_samples = true
  /\ Forall (fun now => Z.abs now <= max_time_value) clock_samples
  /\ List.length clock_samples = 3002%nat.
Proof.
  split; [vm_compute; reflexivity|]. split; [|reflexivity].
  apply Forall_forall. intros now H.
  apply Z.leb_le. revert now H. apply forallb_forall.
  vm_compute. reflexivity.
Qed.

End NumberFacts.

(** ** Every run follows one of the paths *)

Ltac phases :=
  cbv beta iota zeta delta
    [app funding balance_query funded readOnly_creation client_creation
     connected building submission report submitted farewell].

Ltac phases_in H :=
  cbv beta iota zeta delta
    [app funding balance_query funded readOnly_creation client_creation
     connected building submission report submitted farewell] in H.

(** Case analysis on the membership of an event in an explicit journal. *)
Ltac find_event H :=
  phases_in H; cbn [In] in H;
  repeat lazymatch type of H with
         | _ \/ _ => destruct H as [H|H]; [try discriminate H|]
         | False => contradiction H
         end.

(** Case analysis on the path a run took. *)
Ltac paths classified :=
  let R := fresh "R" in
  pose proof classified as R;
  unfold outcome, trace in *;
  lazymatch type of R with
  | Run _ ?r0 ?j0 =>
      let r := fresh "r" in
      let j := fresh "j" in
      set (r := r0) in *; set (j := j0) in *;
      clearbody r j; destruct R
  end.

(** Membership of an event in the journal of a concrete run. *)
Ltac in_journal :=
  vm_compute; repeat (first [left; reflexivity | right]).

Ltac decide_checks :=
  repeat match goal with
         | H : ?a = ?b |- context [String.eqb ?a ?b] =>
             rewrite (proj2 (String.eqb_eq a b) H)
         | H : ?a <> ?b |- context [String.eqb ?a ?b] =>
             rewrite (proj2 (String.eqb_neq a b) H)
         | H : locking _ = _ |- context [locking _] => rewrite H
         end.

Lemma createLocked_Run (World : Type) (sdk : Sdk World) (w : World) :
  Run sdk (fst (createLocked sdk (start w)))
          (journal (snd (createLocked sdk (start w)))).
Proof.
  cbv beta iota zeta delta
    [createLocked getFundedNotarizationClient requestFunds balance_check
     locking_of assert log sync ask await emit bind ret throw start
     world journal exitCode app fst snd is_defined].
  destruct (Ed25519Keypair_generate sdk w) as [kp w1].
  fold (owner_of sdk kp).
  destruct (requestIotaFromFaucetV0 sdk _ _ w1) as [[[]|e] w2];
    [|apply (@faucet_rejects World sdk kp e)].
  destruct (getBalance sdk _ _ w2) as [[bal|e] w3];
    [|apply (@balance_rejects World sdk kp e)].
  destruct (String.eqb_spec (totalBalance bal) "0") as [Hz|Hz];
    [apply (@balance_is_zero World sdk kp bal Hz)|].
  destruct (NotarizationClientReadOnly_create sdk _ w3) as [[ro|e] w4];
    [|apply (@readOnly_rejects World sdk kp bal e Hz)].
  destruct (NotarizationClient_create sdk ro _ w4) as [[c|e] w5];
    [|apply (@client_rejects World sdk kp bal ro e Hz)].
  destruct (Date_now sdk w5) as [now w6].
  fold (built now).
  destruct (buildAndExecute sdk (built now) c w6) as [[n|e] w7];
    [|apply (@submit_rejects World sdk kp bal ro c now e Hz)].
  destruct (String.eqb_spec (method n) "Locked") as [Hm|Hm];
    [|apply (@method_differs World sdk kp bal ro c now n Hz Hm)].
  destruct (locking (immutableMetadata n)) as [l|] eqn:Hl;
    [ replace (VLocking (Some l))
        with (VLocking (locking (immutableMetadata n)))
        by (rewrite Hl; reflexivity)
    | replace (VLocking None)
        with (VLocking (locking (immutableMetadata n)))
        by (rewrite Hl; reflexivity);
      apply (@locking_missing World sdk kp bal ro c now n Hz Hm Hl) ].
  destruct (String.eqb_spec (type (updateLock l)) "UntilDestroyed") as [Hu|Hu];
    [|apply (@updateLock_differs World sdk kp bal ro c now n l Hz Hm Hl Hu)].
  destruct (String.eqb_spec (type (transferLock l)) "UntilDestroyed") as [Ht|Ht].
  - apply (@verified World sdk kp bal ro c now n l Hz Hm Hl Hu Ht).
  - apply (@transferLock_differs World sdk kp bal ro c now n l Hz Hm Hl Hu Ht).
Qed.

Lemma four_conditions_dec (n : OnChainNotarization) :
  (method_is_Locked n /\ locking_is_present n
   /\ updateLock_is_UntilDestroyed n /\ transferLock_is_UntilDestroyed n)
  <-> until_false (four_checks n) = [true; true; true; true].
Proof.
  unfold method_is_Locked, locking_is_present, updateLock_is_UntilDestroyed,
    transferLock_is_UntilDestroyed, four_checks, lock_is_UntilDestroyed.
  destruct (locking (immutableMetadata n)) as [l|]; cbn [is_defined].
  - destruct (String.eqb_spec (method n) "Locked") as [Hm|Hm];
      destruct (String.eqb_spec (type (updateLock l)) "UntilDestroyed")
        as [Hu|Hu];
      destruct (String.eqb_spec (type (transferLock l)) "UntilDestroyed")
        as [Ht|Ht];
      cbn [until_false]; split;
      try discriminate;
      try (intros _; reflexivity);
      try (intros (Hm' & _ & (l1 & E1 & Hu') & (l2 & E2 & Ht'));
           injection E1 as <-; injection E2 as <-; contradiction).
    intros _. repeat split; try assumption; try discriminate; eauto.
  - destruct (String.eqb (method n) "Locked"); cbn [until_false]; split;
      try discriminate; intros (_ & Hl & _); contradiction.
Qed.

(** C1. After a successful submission the script checks the returned record
    with the four assertions of lines 98-103, evaluated in order up to the
    first that fails; the run ends in an assertion failure exactly when one
    of the four conditions (method is "Locked", locking metadata present,
    update lock "UntilDestroyed", transfer lock "UntilDestroyed") is
    violated, and a record satisfying all four lets the run complete
    normally after exactly four assertions. *)
Theorem submitted_record_is_validated (World : Type) (sdk : Sdk World)
    (w : World) (b : NotarizationBuilder) (n : OnChainNotarization) :
  In (Settled (buildAndExecute_call b) (Normal (VNotarization n)))
     (trace sdk w) ->
  assertions (trace sdk w) = until_false (four_checks n)
  /\ (outcome sdk w = Throw AssertionError <->
      ~ (method_is_Locked n /\ locking_is_present n
         /\ updateLock_is_UntilDestroyed n
         /\ transferLock_is_UntilDestroyed n))
  /\ (method_is_Locked n -> locking_is_present n ->
      updateLock_is_UntilDestroyed n -> transferLock_is_UntilDestroyed n ->
      outcome sdk w = Normal tt
      /\ assertions (trace sdk w) = [true; true; true; true]).
Proof.
  intros H. rewrite four_conditions_dec.
  assert (G : assertions (trace sdk w) = until_false (four_checks n)
              /\ (outcome sdk w = Throw AssertionError
                  \/ outcome sdk w = Normal tt)
              /\ (outcome sdk w = Normal tt <->
                  until_false (four_checks n) = [true; true; true; true])).
  { paths (createLocked_Run sdk w); find_event H;
      injection H as <- <-;
      unfold four_checks, lock_is_UntilDestroyed; decide_checks;
      phases; cbn [assertions until_false is_defined];
      (split; [reflexivity|]); (split; [auto|]);
      split; intros; try discriminate; reflexivity. }
  destruct G as (Ha & Hr & Hok). split; [exact Ha|]. split.
  - rewrite <- Hok. destruct Hr as [-> | ->]; split; intros;
      try discriminate; try reflexivity; try contradiction.
  - intros Hm Hl Hu Ht.
    assert (Hall : until_false (four_checks n) = [true; true; true; true])
      by (apply four_conditions_dec; auto).
    split; [apply Hok; exact Hall | rewrite Ha; exact Hall].
Qed.

(** C2. When the balance query resolves with a balance whose total is zero
    (the string "0"), [createLocked] throws an [Error] whose message is
    "Balance is still 0"; the run stops at the balance answer: neither of
    the two notarization clients is requested, no builder or [TimeLock]
    call is made and nothing is submitted. *)
Theorem zero_balance_aborts (World : Type) (sdk : Sdk World) (w : World)
    (owner : string) (bal : Balance) :
  In (Settled (getBalance_call owner) (Normal (VBalance bal))) (trace sdk w) ->
  totalBalance bal = "0"%string ->
  (exists message,
      outcome sdk w = Throw (Error message)
      /\ index 0 "Balance is still 0" message = Some 0%nat)
  /\ steps (trace sdk w)
     = [KeyPairGenerated; FaucetRequested; FaucetCompleted;
        BalanceQueried; BalanceReturned]
  /\ ~ In (Issued NotarizationClientReadOnly_create_call) (trace sdk w)
  /\ ~ In (Issued NotarizationClient_create_call) (trace sdk w)
  /\ count is_builder_call (trace sdk w) = 0%nat
  /\ count is_submit (trace sdk w) = 0%nat.
Proof.
  intros H Hz.
  paths (createLocked_Run sdk w); find_event H;
    injection H as _ ->; try contradiction.
  split; [exists "Balance is still 0"%string; split; reflexivity|].
  repeat split; try reflexivity; intros H; find_event H.
Qed.

(** C8. The zero-balance gate compares strings: the [if] statement throws
    "Balance is still 0" exactly when [totalBalance] is the string "0".  In
    a run whose balance query resolved, that string stops the run before
    any client is requested, and every other string, "00" and "0.0"
    included, lets it log the balance and request the read-only client. *)
Theorem balance_gate_compares_strings (World : Type) (sdk : Sdk World) :
  (forall bal signer p,
      fst (balance_check sdk bal signer p) = Throw (Error "Balance is still 0")
      <-> totalBalance bal = "0"%string)
  /\ (forall signer p,
         fst (balance_check sdk (a_balance "00") signer p) = Normal tt
         /\ fst (balance_check sdk (a_balance "0.0") signer p) = Normal tt)
  /\ (forall w owner bal,
         In (Settled (getBalance_call owner) (Normal (VBalance bal)))
            (trace sdk w) ->
         (totalBalance bal = "0"%string ->
          outcome sdk w = Throw (Error "Balance is still 0")
          /\ ~ In ReadOnlyClientRequested (steps (trace sdk w)))
         /\ (totalBalance bal <> "0"%string ->
             In (console_log
                   [VStr ("Received gas from faucet: " ++ totalBalance bal
                          ++ " for owner " ++ owner)%string])
                (trace sdk w)
             /\ In ReadOnlyClientRequested (steps (trace sdk w)))).
Proof.
  split; [|split].
  - intros bal signer p. unfold balance_check, throw, log, emit.
    destruct (String.eqb_spec (totalBalance bal) "0"); cbn [fst]; split;
      intros; try reflexivity; try discriminate; try assumption;
      contradiction.
  - intros signer p. split; reflexivity.
  - intros w owner bal H.
    paths (createLocked_Run sdk w); find_event H;
      injection H as <- <-;
      (split; intros Hb; [try contradiction | try contradiction]);
      try (split; [reflexivity | intros G; cbn in G; intuition discriminate]);
      (split; [phases; cbn [In]; auto 12 | cbn; auto 12]).
Qed.

(** C4, amended. Every run creates at most one builder, calls [finish] at
    most once and issues at most one [buildAndExecute]; when the balance is
    non-zero and both notarization clients are created, it does each
    exactly once, and the one submission carries the finished builder. *)
Theorem funded_run_submits_once (World : Type) (sdk : Sdk World) (w : World) :
  (count is_builder_created (trace sdk w) <= 1
   /\ count is_finish (trace sdk w) <= 1
   /\ count is_submit (trace sdk w) <= 1)%nat
  /\ (forall owner bal ro c,
         In (Settled (getBalance_call owner) (Normal (VBalance bal)))
            (trace sdk w) ->
         totalBalance bal <> "0"%string ->
         In (Settled NotarizationClientReadOnly_create_call
               (Normal (VReadOnly ro))) (trace sdk w) ->
         In (Settled NotarizationClient_create_call (Normal (VClient c)))
            (trace sdk w) ->
         count is_builder_created (trace sdk w) = 1%nat
         /\ count is_finish (trace sdk w) = 1%nat
         /\ count is_submit (trace sdk w) = 1%nat
         /\ exists b, In (Issued (buildAndExecute_call b)) (trace sdk w)
                      /\ b_finished b = true).
Proof.
  split.
  - paths (createLocked_Run sdk w); cbn; lia.
  - intros owner bal0 ro0 c0 _ _ _ H.
    paths (createLocked_Run sdk w); find_event H;
      (repeat split; [reflexivity .. |]);
      exists (built now); (split; [phases; cbn [In]; auto 40 | reflexivity]).
Qed.

(** C5. The builder never receives a string state; each builder the script
    creates receives exactly one state, by [withBytesState], with the fixed
    ten bytes and the fixed metadata string, and that is the state of every
    builder it submits. *)
Theorem state_is_given_as_bytes (World : Type) (sdk : Sdk World) (w : World) :
  count is_string_state (trace sdk w) = 0%nat
  /\ count is_bytes_state (trace sdk w)
     = count is_builder_created (trace sdk w)
  /\ (forall bytes meta,
         In (Sync (withBytesState_call bytes meta)) (trace sdk w) ->
         bytes = [x0e; xff; x00; x7d; x40; x57; x0b; x72; x6c; x64]
         /\ List.length bytes = 10%nat
         /\ meta = "Document metadata e.g., version specifier"%string)
  /\ (forall b,
         In (Issued (buildAndExecute_call b)) (trace sdk w) ->
         b_state b
         = Some {| data := BytesData state_bytes;
                   metadata :=
                     Some "Document metadata e.g., version specifier"%string |}).
Proof.
  paths (createLocked_Run sdk w);
    (split; [reflexivity|]); (split; [reflexivity|]);
    (split; [intros bytes meta Hin | intros b Hin]); find_event Hin;
    try (injection Hin as <- <-; repeat split; reflexivity);
    injection Hin as <-; reflexivity.
Qed.

(** ** Order of the steps *)

Lemma In_firstn (A : Type) (x : A) (k : nat) (l : list A) :
  In x (firstn k l) -> In x l.
Proof.
  revert l. induction k as [|k IH]; intros [|y l] H; cbn in H;
    try contradiction.
  destruct H as [->|H]; [left; reflexivity | right; apply IH, H].
Qed.

Lemma NoDup_firstn (A : Type) (k : nat) (l : list A) :
  NoDup l -> NoDup (firstn k l).
Proof.
  intros ND. revert k. induction ND as [|x l Hx ND IH]; intros [|k]; cbn;
    try constructor.
  - intros H. apply Hx. eapply In_firstn, H.
  - apply IH.
Qed.

(** An initial segment of a duplicate-free list keeps the order of the
    elements it contains. *)
Lemma precedes_firstn (l : list Step) (a b : Step) (k : nat) :
  NoDup l -> precedes a b l -> In b (firstn k l) -> precedes a b (firstn k l).
Proof.
  intros ND (l1 & l2 & l3 & ->) Hb.
  assert (E : l1 ++ a :: l2 ++ b :: l3 = (l1 ++ a :: l2) ++ b :: l3)
    by (rewrite <- app_assoc; reflexivity).
  rewrite E in *. clear E. set (pre := l1 ++ a :: l2) in *.
  rewrite firstn_app in *.
  destruct (Nat.le_gt_cases k (List.length pre)) as [Hk|Hk].
  - exfalso. replace (k - List.length pre)%nat with 0%nat in Hb by lia.
    cbn [firstn] in Hb. rewrite app_nil_r in Hb.
    apply (NoDup_remove_2 _ _ _ ND). apply in_or_app. left.
    eapply In_firstn, Hb.
  - rewrite firstn_all2 by lia.
    destruct (k - List.length pre)%nat as [|m] eqn:Ek; [lia|].
    cbn [firstn]. exists l1, l2, (firstn m l3). unfold pre.
    rewrite <- app_assoc. reflexivity.
Qed.

Lemma program_order_NoDup : NoDup program_order.
Proof.
  unfold program_order.
  repeat (constructor; [cbn [In]; intuition discriminate|]). constructor.
Qed.

Lemma steps_are_a_prefix (World : Type) (sdk : Sdk World) (w : World) :
  exists k, steps (trace sdk w) = firstn k program_order.
Proof.
  paths (createLocked_Run sdk w);
    first [ exists 3%nat; reflexivity | exists 5%nat; reflexivity
          | exists 7%nat; reflexivity | exists 9%nat; reflexivity
          | exists 13%nat; reflexivity ].
Qed.

Lemma workflow_stops_at_failure (World : Type) (sdk : Sdk World) (w : World) :
  stops_at_failure (trace sdk w) = true.
Proof.
  paths (createLocked_Run sdk w);
    phases; cbn [stops_at_failure is_failure]; decide_checks;
    try reflexivity;
    repeat match goal with
           | H : totalBalance ?b <> _
             |- context [String.eqb (totalBalance ?b) ?s] =>
               rewrite (proj2 (String.eqb_neq (totalBalance b) s) H)
           end; reflexivity.
Qed.

(** C6. In every run the steps occur in program order (key pair, faucet
    request and its completion, balance query and its answer, read-only
    client, signing client, builder, finish, submission): the steps of a run
    are an initial segment of that order, so whenever a step happens, every
    step before it in the program has happened earlier in the run; every
    awaited call settles before the next event, nothing running in
    parallel; and nothing follows a rejection, a zero balance or a failed
    assertion, so a later step only happens after the earlier ones
    succeeded. *)
Theorem steps_follow_program_order (World : Type) (sdk : Sdk World)
    (w : World) :
  (exists k, steps (trace sdk w) = firstn k program_order)
  /\ (forall a b,
         precedes a b program_order ->
         In b (steps (trace sdk w)) ->
         precedes a b (steps (trace sdk w)))
  /\ sequential (trace sdk w)
  /\ stops_at_failure (trace sdk w) = true.
Proof.
  split; [apply steps_are_a_prefix|]. split; [|split].
  - intros a b Hab Hb.
    destruct (steps_are_a_prefix sdk w) as [k E]. rewrite E in *.
    apply precedes_firstn; [apply program_order_NoDup | exact Hab | exact Hb].
  - paths (createLocked_Run sdk w); phases; cbn [sequential]; repeat split.
  - apply workflow_stops_at_failure.
Qed.

(** ** The top-level handler and the exit status *)

Lemma script_result (World : Type) (sdk : Sdk World) (w : World) :
  process_end sdk w
  = match outcome sdk w with
    | Normal a => (Normal a, snd (createLocked sdk (start w)))
    | Throw e =>
        (Normal tt,
         {| world := world (snd (createLocked sdk (start w)));
            journal := trace sdk w
                       ++ [console_error
                             [VStr "Error creating locked notarization:";
                              VError e]];
            exitCode := exitCode (snd (createLocked sdk (start w))) |})
    end.
Proof.
  unfold process_end, script, catch, main, emit, outcome, trace.
  destruct (createLocked sdk (start w)) as [[a|e] p]; reflexivity.
Qed.

Section ExitCode.

Variable World : Type.

Lemma keeps_ret (A : Type) (a : A) : keeps_exitCode (@ret World A a).
Proof. intros p. reflexivity. Qed.

Lemma keeps_throw (A : Type) (e : error) : keeps_exitCode (@throw World A e).
Proof. intros p. reflexivity. Qed.

Lemma keeps_emit (ev : Event) : keeps_exitCode (@emit World ev).
Proof. intros p. reflexivity. Qed.

Lemma keeps_ask (A : Type) (label : A -> SyncCall) (f : World -> A * World) :
  keeps_exitCode (ask label f).
Proof. intros p. unfold ask. destruct (f (world p)). reflexivity. Qed.

Lemma keeps_await (A : Type) (c : AsyncCall) (inj : A -> Val)
    (f : World -> completion A * World) :
  keeps_exitCode (await c inj f).
Proof. intros p. unfold await. destruct (f (world p)). reflexivity. Qed.

Lemma keeps_bind (A B : Type) (c : js World A) (k : A -> js World B) :
  keeps_exitCode c -> (forall a, keeps_exitCode (k a)) ->
  keeps_exitCode (bind c k).
Proof.
  intros Hc Hk p. unfold bind. specialize (Hc p).
  destruct (c p) as [[a|e] p']; cbn [snd] in *.
  - rewrite Hk. exact Hc.
  - exact Hc.
Qed.

End ExitCode.

Create HintDb exit_code.
#[local] Hint Resolve keeps_ret keeps_throw keeps_emit keeps_ask keeps_await
  : exit_code.

Ltac keeps :=
  repeat first
    [ apply keeps_bind; [|intro]
    | solve [auto with exit_code]
    | match goal with
      | |- keeps_exitCode (if ?b then _ else _) => destruct b
      | |- keeps_exitCode (match ?o with Some _ => _ | None => _ end) =>
          destruct o
      end ].

Lemma createLocked_keeps_exitCode (World : Type) (sdk : Sdk World) :
  keeps_exitCode (createLocked sdk).
Proof.
  unfold createLocked, getFundedNotarizationClient, requestFunds,
    balance_check, locking_of, assert, log, sync.
  keeps.
Qed.

Lemma exitCode_stays_undefined (World : Type) (sdk : Sdk World) (w : World) :
  exitCode (snd (process_end sdk w)) = None.
Proof.
  rewrite script_result.
  pose proof (createLocked_keeps_exitCode sdk (start w)) as K.
  destruct (outcome sdk w); cbn [snd exitCode]; exact K.
Qed.

Lemma handler_consumes (World : Type) (sdk : Sdk World) (w : World) :
  fst (process_end sdk w) = Normal tt.
Proof.
  rewrite script_result. destruct (outcome sdk w) as [[]|e]; reflexivity.
Qed.

Lemma handler_logs (World : Type) (sdk : Sdk World) (w : World) (e : error) :
  outcome sdk w = Throw e ->
  journal (snd (process_end sdk w))
  = trace sdk w
    ++ [console_error [VStr "Error creating locked notarization:"; VError e]].
Proof.
  intros H. rewrite script_result, H. reflexivity.
Qed.

(** C9. The handler of the module body consumes every rejection of the
    workflow: the promise chain ends fulfilled and [process.exitCode] is
    never written, so every run, failing or not, ends with exit status 0,
    a failing one after logging the error with [console.error]; the exit
    status of any two runs is the same. *)
Theorem exit_status_is_zero (World : Type) (sdk : Sdk World) (w : World) :
  fst (process_end sdk w) = Normal tt
  /\ exitCode (snd (process_end sdk w)) = None
  /\ exit_status (process_end sdk w) = 0%Z
  /\ (forall e,
         outcome sdk w = Throw e ->
         journal (snd (process_end sdk w))
         = trace sdk w
           ++ [console_error
                 [VStr "Error creating locked notarization:"; VError e]])
  /\ (forall (World' : Type) (sdk' : Sdk World') (w' : World'),
         exit_status (process_end sdk' w') = exit_status (process_end sdk w)).
Proof.
  assert (Z : forall (V : Type) (s : Sdk V) (v : V),
             exit_status (process_end s v) = 0%Z).
  { intros V s v. unfold exit_status.
    rewrite handler_consumes, exitCode_stays_undefined. reflexivity. }
  split; [apply handler_consumes|].
  split; [apply exitCode_stays_undefined|].
  split; [apply Z|].
  split; [intros e; apply handler_logs|].
  intros V s v. rewrite !Z. reflexivity.
Qed.

(** C7. Whatever fails inside the workflow (a rejected call, the zero
    balance, a failed assertion) is what [createLocked] and [main] reject
    with; the failure is the last event of the workflow and no step
    happens twice, so nothing is retried or recovered, and no handler runs
    inside it; the one handler,
    at the top level, then logs that very error with [console.error]. *)
Theorem errors_reach_the_top_level (World : Type) (sdk : Sdk World)
    (w : World) :
  (forall c e,
      In (Settled c (Throw e)) (trace sdk w) -> outcome sdk w = Throw e)
  /\ (forall owner bal,
         In (Settled (getBalance_call owner) (Normal (VBalance bal)))
            (trace sdk w) ->
         totalBalance bal = "0"%string ->
         outcome sdk w = Throw (Error "Balance is still 0"))
  /\ (In (Asserted false) (trace sdk w) ->
      outcome sdk w = Throw AssertionError)
  /\ stops_at_failure (trace sdk w) = true
  /\ NoDup (steps (trace sdk w))
  /\ count is_console_error (trace sdk w) = 0%nat
  /\ (forall e,
         outcome sdk w = Throw e ->
         is_failure (last (trace sdk w) (Asserted true)) = true
         /\ fst (main sdk None (start w)) = Throw e
         /\ journal (snd (process_end sdk w))
            = trace sdk w
              ++ [console_error
                    [VStr "Error creating locked notarization:"; VError e]])
  /\ (outcome sdk w = Normal tt ->
      journal (snd (process_end sdk w)) = trace sdk w).
Proof.
  split; [|split; [|split; [|split; [|split; [|split; [|split]]]]]].
  - intros c e Hin.
    paths (createLocked_Run sdk w); find_event Hin;
      injection Hin as _ <-; reflexivity.
  - intros owner bal Hin Hz.
    paths (createLocked_Run sdk w); find_event Hin;
      injection Hin as _ ->; try contradiction; reflexivity.
  - intros Hin.
    paths (createLocked_Run sdk w); find_event Hin; reflexivity.
  - apply workflow_stops_at_failure.
  - destruct (steps_are_a_prefix sdk w) as [k ->].
    apply NoDup_firstn, program_order_NoDup.
  - paths (createLocked_Run sdk w); reflexivity.
  - intros e He. split; [|split].
    + paths (createLocked_Run sdk w); try discriminate He;
        phases; cbn [last is_failure]; decide_checks; reflexivity.
    + exact He.
    + apply handler_logs, He.
  - intros Hok. rewrite script_result, Hok. reflexivity.
Qed.

(** ** The delete-lock unlock time *)

Lemma delete_unlock_at_within_half_second (now : Z) :
  (Z.abs now <= max_time_value ->
   exists s, delete_unlock_at now = Fin s 0
             /\ s = (now + 86400500) / 1000
             /\ 2 * Z.abs (1000 * s - (now + 86400 * 1000)) <= 1000)%Z.
Proof.
  intros H. exists ((now + 86400500) / 1000)%Z.
  split; [apply delete_unlock_at_value; exact H|]. split; [reflexivity|].
  pose proof (Z.div_mod (now + 86400500) 1000 ltac:(lia)).
  pose proof (Z.mod_pos_bound (now + 86400500) 1000 ltac:(lia)).
  lia.
Qed.

(** C10. The unlock time is [Math.round(now / 1000 + 86400)] on the
    millisecond clock reading; for every time value it is a whole number of
    seconds, the exact quotient rounded half up, and so at most half a
    second away from [now/1000 + 86400]. *)
Theorem unlock_time_is_whole_seconds (now : Z) :
  (Z.abs now <= max_time_value ->
   delete_unlock_at now
   = Math_round (Number_add (Number_div (Fin now 0) (Fin 1000 0))
                            (Fin 86400 0))
   /\ exists s, delete_unlock_at now = Fin s 0
                /\ s = (now + 86400500) / 1000
                /\ 2 * Z.abs (1000 * s - (now + 86400 * 1000)) <= 1000)%Z.
Proof.
  intros H. split; [reflexivity|].
  apply delete_unlock_at_within_half_second, H.
Qed.

(** C3. The value a run passes to [TimeLock.withUnlockAt] is computed from
    the clock reading the run took just before: no awaited call lies
    between [Date.now()] and the builder call, and the value in seconds is
    the reading plus 86400 seconds up to rounding, at most half a second
    off and so well within five seconds. *)
Theorem unlock_time_is_a_day_after_now (World : Type) (sdk : Sdk World)
    (w : World) (v : number) :
  In (Sync (withUnlockAt_call v)) (trace sdk w) ->
  exists now earlier between later,
    trace sdk w
    = earlier ++ Sync (Date_now_call now)
      :: between ++ Sync (withUnlockAt_call v) :: later
    /\ count is_issued between = 0%nat
    /\ v = delete_unlock_at now
    /\ In (Sync (withDeleteLock_call (withUnlockAt v))) later
    /\ ((Z.abs now <= max_time_value)%Z ->
        exists s, v = Fin s 0
                  /\ (Z.abs (1000 * s - (now + 86400 * 1000)) <= 500)%Z
                  /\ (Z.abs (1000 * s - (now + 86400 * 1000)) <= 5 * 1000)%Z).
Proof.
  intros Hin.
  paths (createLocked_Run sdk w); find_event Hin;
    injection Hin as <-;
    exists now, (connected sdk kp bal ro c), (firstn 4 (tl (building now)));
    eexists;
    (split; [cbv beta iota zeta delta
               [app funding balance_query funded readOnly_creation
                client_creation connected building submission report
                submitted farewell firstn tl]; reflexivity|]);
    (split; [reflexivity|]); (split; [reflexivity|]);
    (split; [cbn [In]; auto|]);
    intros Hnow;
    destruct (@delete_unlock_at_within_half_second now Hnow) as (s & E & _ & B);
    exists s; (split; [exact E|]); lia.
Qed.

(** ** A funded run that never reaches the builder *)

(** C4 as stated fails: with a non-zero balance and a read-only client whose
    creation is rejected, the run creates no builder and submits nothing. *)
Lemma funded_run_without_submission :
  (In (Settled (getBalance_call "0xa11ce")
         (Normal (VBalance (a_balance "10000000000"))))
      (trace (mock_sdk node_down) tt)
   /\ totalBalance (a_balance "10000000000") <> "0"%string
   /\ outcome (mock_sdk node_down) tt = Throw (Error "fetch failed")
   /\ count is_builder_created (trace (mock_sdk node_down) tt) = 0%nat
   /\ count is_finish (trace (mock_sdk node_down) tt) = 0%nat
   /\ count is_submit (trace (mock_sdk node_down) tt) = 0%nat)
  /\ ~ (forall (World : Type) (sdk : Sdk World) (w : World) owner bal,
           In (Settled (getBalance_call owner) (Normal (VBalance bal)))
              (trace sdk w) ->
           totalBalance bal <> "0"%string ->
           count is_builder_created (trace sdk w) = 1%nat
           /\ count is_finish (trace sdk w) = 1%nat
           /\ count is_submit (trace sdk w) = 1%nat).
Proof.
  assert (H : In (Settled (getBalance_call "0xa11ce")
                    (Normal (VBalance (a_balance "10000000000"))))
                 (trace (mock_sdk node_down) tt)) by in_journal.
  assert (N : totalBalance (a_balance "10000000000") <> "0"%string)
    by discriminate.
  split.
  - split; [exact H|]. split; [exact N|]. repeat split; reflexivity.
  - intros claim.
    destruct (claim unit (mock_sdk node_down) tt _ _ H N) as (B & _).
    vm_compute in B. discriminate B.
Qed.

(** ** Sample runs *)

Example state_bytes_in_a_template :
  Uint8Array_toString state_bytes = "14,255,0,125,64,87,11,114,108,100"%string.
Proof. reflexivity. Qed.

Example healthy_run_completes :
  outcome (mock_sdk healthy) tt = Normal tt
  /\ steps (trace (mock_sdk healthy) tt) = program_order
  /\ List.length (trace (mock_sdk healthy) tt) = 47%nat.
Proof. vm_compute. repeat split. Qed.

Example healthy_run_unlock_time :
  In (Sync (withUnlockAt_call (Fin 1762171200 0)))
     (trace (mock_sdk healthy) tt).
Proof. in_journal. Qed.

(** A record whose method is "Dynamic" fails the first assertion, and the
    process ends through the handler. *)
Example dynamic_record_fails_the_method_assertion :
  outcome (mock_sdk dynamic_record) tt = Throw AssertionError
  /\ assertions (trace (mock_sdk dynamic_record) tt) = [false]
  /\ last (journal (snd (process_end (mock_sdk dynamic_record) tt)))
          (Asserted true)
     = console_error [VStr "Error creating locked notarization:";
                      VError AssertionError].
Proof. vm_compute. repeat split. Qed.

(** ** The theorems at concrete runs *)

Section Witnesses.

Local Open Scope string_scope.

Lemma submitted_record_is_validated_witness :
  In (Settled (buildAndExecute_call submitted_builder)
        (Normal (VNotarization returned_record)))
     (trace (mock_sdk healthy) tt)
  /\ outcome (mock_sdk healthy) tt = Normal tt
  /\ assertions (trace (mock_sdk healthy) tt) = [true; true; true; true].
Proof.
  assert (H : In (Settled (buildAndExecute_call submitted_builder)
                    (Normal (VNotarization returned_record)))
                 (trace (mock_sdk healthy) tt)) by in_journal.
  split; [exact H|].
  destruct (@submitted_record_is_validated unit (mock_sdk healthy) tt
              submitted_builder returned_record H) as (_ & _ & Hok).
  apply Hok.
  - reflexivity.
  - discriminate.
  - eexists; split; reflexivity.
  - eexists; split; reflexivity.
Defined.

Lemma zero_balance_aborts_witness :
  In (Settled (getBalance_call "0xa11ce") (Normal (VBalance (a_balance "0"))))
     (trace (mock_sdk slow_faucet) tt)
  /\ totalBalance (a_balance "0") = "0"
  /\ (exists message,
         outcome (mock_sdk slow_faucet) tt = Throw (Error message)
         /\ index 0 "Balance is still 0" message = Some 0%nat)
  /\ count is_builder_call (trace (mock_sdk slow_faucet) tt) = 0%nat
  /\ count is_submit (trace (mock_sdk slow_faucet) tt) = 0%nat.
Proof.
  assert (H : In (Settled (getBalance_call "0xa11ce")
                    (Normal (VBalance (a_balance "0"))))
                 (trace (mock_sdk slow_faucet) tt)) by in_journal.
  split; [exact H|]. split; [reflexivity|].
  destruct (@zero_balance_aborts unit (mock_sdk slow_faucet) tt "0xa11ce"
              (a_balance "0") H eq_refl) as (Hm & _ & _ & _ & Hb & Hs).
  split; [exact Hm|]. split; [exact Hb | exact Hs].
Defined.

Lemma unlock_time_is_a_day_after_now_witness :
  In (Sync (withUnlockAt_call (Fin 1762171200 0)))
     (trace (mock_sdk healthy) tt)
  /\ exists now earlier between later,
       trace (mock_sdk healthy) tt
       = (earlier ++ Sync (Date_now_call now)
          :: between ++ Sync (withUnlockAt_call (Fin 1762171200 0))
          :: later)%list
       /\ count is_issued between = 0%nat
       /\ Fin 1762171200 0 = delete_unlock_at now.
Proof.
  assert (H : In (Sync (withUnlockAt_call (Fin 1762171200 0)))
                 (trace (mock_sdk healthy) tt)) by in_journal.
  split; [exact H|].
  destruct (@unlock_time_is_a_day_after_now unit (mock_sdk healthy) tt
              (Fin 1762171200 0) H)
    as (now & earlier & between & later & E & Hc & Hv & _).
  exists now, earlier, between, later.
  split; [exact E|]. split; [exact Hc | exact Hv].
Defined.

Lemma funded_run_submits_once_witness :
  In (Settled (getBalance_call "0xa11ce")
        (Normal (VBalance (a_balance "10000000000"))))
     (trace (mock_sdk healthy) tt)
  /\ totalBalance (a_balance "10000000000") <> "0"
  /\ In (Settled NotarizationClientReadOnly_create_call
           (Normal (VReadOnly (readOnly a_client))))
        (trace (mock_sdk healthy) tt)
  /\ In (Settled NotarizationClient_create_call (Normal (VClient a_client)))
        (trace (mock_sdk healthy) tt)
  /\ count is_builder_created (trace (mock_sdk healthy) tt) = 1%nat
  /\ count is_finish (trace (mock_sdk healthy) tt) = 1%nat
  /\ count is_submit (trace (mock_sdk healthy) tt) = 1%nat.
Proof.
  assert (H1 : In (Settled (getBalance_call "0xa11ce")
                     (Normal (VBalance (a_balance "10000000000"))))
                  (trace (mock_sdk healthy) tt)) by in_journal.
  assert (H2 : totalBalance (a_balance "10000000000") <> "0")
    by discriminate.
  assert (H3 : In (Settled NotarizationClientReadOnly_create_call
                     (Normal (VReadOnly (readOnly a_client))))
                  (trace (mock_sdk healthy) tt)) by in_journal.
  assert (H4 : In (Settled NotarizationClient_create_call
                     (Normal (VClient a_client)))
                  (trace (mock_sdk healthy) tt)) by in_journal.
  destruct (@funded_run_submits_once unit (mock_sdk healthy) tt) as [_ G].
  destruct (G "0xa11ce" (a_balance "10000000000") (readOnly a_client)
              a_client H1 H2 H3 H4) as (Gb & Gf & Gs & _).
  split; [exact H1|]. split; [exact H2|]. split; [exact H3|].
  split; [exact H4|]. split; [exact Gb|]. split; [exact Gf | exact Gs].
Defined.

Lemma state_is_given_as_bytes_witness :
  In (Sync (withBytesState_call state_bytes
              "Document metadata e.g., version specifier"))
     (trace (mock_sdk healthy) tt)
  /\ In (Issued (buildAndExecute_call submitted_builder))
        (trace (mock_sdk healthy) tt)
  /\ List.length state_bytes = 10%nat
  /\ b_state submitted_builder
     = Some {| data := BytesData state_bytes;
               metadata := Some "Document metadata e.g., version specifier" |}
  /\ count is_string_state (trace (mock_sdk healthy) tt) = 0%nat.
Proof.
  assert (H1 : In (Sync (withBytesState_call state_bytes
                           "Document metadata e.g., version specifier"))
                  (trace (mock_sdk healthy) tt)) by in_journal.
  assert (H2 : In (Issued (buildAndExecute_call submitted_builder))
                  (trace (mock_sdk healthy) tt)) by in_journal.
  destruct (@state_is_given_as_bytes unit (mock_sdk healthy) tt)
    as (G0 & _ & G1 & G2).
  split; [exact H1|]. split; [exact H2|].
  split; [exact (proj1 (proj2 (G1 _ _ H1)))|].
  split; [exact (G2 _ H2) | exact G0].
Defined.

Lemma steps_follow_program_order_witness :
  precedes FaucetCompleted BalanceQueried program_order
  /\ In BalanceQueried (steps (trace (mock_sdk slow_faucet) tt))
  /\ precedes FaucetCompleted BalanceQueried
        (steps (trace (mock_sdk slow_faucet) tt))
  /\ precedes SigningClientCreated BuilderInvoked program_order
  /\ In BuilderInvoked (steps (trace (mock_sdk healthy) tt))
  /\ precedes SigningClientCreated BuilderInvoked
        (steps (trace (mock_sdk healthy) tt)).
Proof.
  assert (P1 : precedes FaucetCompleted BalanceQueried program_order).
  { exists [KeyPairGenerated; FaucetRequested], [],
      [BalanceReturned; ReadOnlyClientRequested; ReadOnlyClientCreated;
       SigningClientRequested; SigningClientCreated; BuilderInvoked;
       BuilderFinished; TransactionSubmitted; TransactionSettled].
    reflexivity. }
  assert (I1 : In BalanceQueried (steps (trace (mock_sdk slow_faucet) tt)))
    by in_journal.
  assert (P2 : precedes SigningClientCreated BuilderInvoked program_order).
  { exists [KeyPairGenerated; FaucetRequested; FaucetCompleted;
            BalanceQueried; BalanceReturned; ReadOnlyClientRequested;
            ReadOnlyClientCreated; SigningClientRequested], [],
      [BuilderFinished; TransactionSubmitted; TransactionSettled].
    reflexivity. }
  assert (I2 : In BuilderInvoked (steps (trace (mock_sdk healthy) tt)))
    by in_journal.
  destruct (@steps_follow_program_order unit (mock_sdk slow_faucet) tt)
    as (_ & G1 & _).
  destruct (@steps_follow_program_order unit (mock_sdk healthy) tt)
    as (_ & G2 & _).
  split; [exact P1|]. split; [exact I1|]. split; [exact (G1 _ _ P1 I1)|].
  split; [exact P2|]. split; [exact I2 | exact (G2 _ _ P2 I2)].
Defined.

Lemma errors_reach_the_top_level_witness :
  In (Settled NotarizationClientReadOnly_create_call
        (Throw (Error "fetch failed")))
     (trace (mock_sdk node_down) tt)
  /\ outcome (mock_sdk node_down) tt = Throw (Error "fetch failed")
  /\ journal (snd (process_end (mock_sdk node_down) tt))
     = (trace (mock_sdk node_down) tt
        ++ [console_error [VStr "Error creating locked notarization:";
                           VError (Error "fetch failed")]])%list.
Proof.
  assert (H : In (Settled NotarizationClientReadOnly_create_call
                    (Throw (Error "fetch failed")))
                 (trace (mock_sdk node_down) tt)) by in_journal.
  destruct (@errors_reach_the_top_level unit (mock_sdk node_down) tt)
    as (G1 & _ & _ & _ & _ & _ & G6 & _).
  pose proof (G1 _ _ H) as E.
  split; [exact H|]. split; [exact E|].
  exact (proj2 (proj2 (G6 _ E))).
Defined.

Lemma balance_gate_compares_strings_witness :
  In (Settled (getBalance_call "0xa11ce") (Normal (VBalance (a_balance "00"))))
     (trace (mock_sdk (with_balance "00")) tt)
  /\ totalBalance (a_balance "00") <> "0"
  /\ In ReadOnlyClientRequested
        (steps (trace (mock_sdk (with_balance "00")) tt))
  /\ In (Settled (getBalance_call "0xa11ce")
           (Normal (VBalance (a_balance "0.0"))))
        (trace (mock_sdk (with_balance "0.0")) tt)
  /\ In ReadOnlyClientRequested
        (steps (trace (mock_sdk (with_balance "0.0")) tt)).
Proof.
  assert (H1 : In (Settled (getBalance_call "0xa11ce")
                     (Normal (VBalance (a_balance "00"))))
                  (trace (mock_sdk (with_balance "00")) tt)) by in_journal.
  assert (H2 : In (Settled (getBalance_call "0xa11ce")
                     (Normal (VBalance (a_balance "0.0"))))
                  (trace (mock_sdk (with_balance "0.0")) tt)) by in_journal.
  assert (N1 : totalBalance (a_balance "00") <> "0") by discriminate.
  assert (N2 : totalBalance (a_balance "0.0") <> "0") by discriminate.
  destruct (@balance_gate_compares_strings unit
              (mock_sdk (with_balance "00"))) as (_ & _ & G1).
  destruct (@balance_gate_compares_strings unit
              (mock_sdk (with_balance "0.0"))) as (_ & _ & G2).
  split; [exact H1|]. split; [exact N1|].
  split; [exact (proj2 (proj2 (G1 _ _ _ H1) N1))|].
  split; [exact H2|].
  exact (proj2 (proj2 (G2 _ _ _ H2) N2)).
Defined.

Lemma exit_status_is_zero_witness :
  outcome (mock_sdk slow_faucet) tt = Throw (Error "Balance is still 0")
  /\ exit_status (process_end (mock_sdk slow_faucet) tt) = 0%Z
  /\ journal (snd (process_end (mock_sdk slow_faucet) tt))
     = (trace (mock_sdk slow_faucet) tt
        ++ [console_error [VStr "Error creating locked notarization:";
                           VError (Error "Balance is still 0")]])%list
  /\ exit_status (process_end (mock_sdk healthy) tt)
     = exit_status (process_end (mock_sdk slow_faucet) tt).
Proof.
  assert (H : outcome (mock_sdk slow_faucet) tt
              = Throw (Error "Balance is still 0")) by reflexivity.
  destruct (@exit_status_is_zero unit (mock_sdk slow_faucet) tt)
    as (_ & _ & G3 & G4 & G5).
  split; [exact H|]. split; [exact G3|].
  split; [exact (G4 _ H) | exact (G5 unit (mock_sdk healthy) tt)].
Defined.

Lemma unlock_time_is_whole_seconds_witness :
  (Z.abs 1762084800123 <= max_time_value)%Z
  /\ delete_unlock_at 1762084800123 = Fin 1762171200 0
  /\ (2 * Z.abs (1000 * 1762171200 - (1762084800123 + 86400 * 1000))
      <= 1000)%Z.
Proof.
  assert (H : (Z.abs 1762084800123 <= max_time_value)%Z)
    by (vm_compute; discriminate).
  destruct (@unlock_time_is_whole_seconds 1762084800123 H)
    as (_ & s & E & -> & B).
  split; [exact H|]. split; [exact E | exact B].
Defined.

End Witnesses.

(** ** What the collaborators are handed *)

(** Runs the script against recording collaborators. *)
Ltac unfold_run :=
  cbv beta iota zeta delta
    [createLocked getFundedNotarizationClient requestFunds balance_check
     locking_of assert log sync ask await emit bind ret throw start
     world journal exitCode app fst snd is_defined
     outcome trace received generated_signer ledger_client spy
     getNetwork_url getFaucetHost Ed25519Keypair_generate keyId
     requestIotaFromFaucetV0 getBalance NotarizationClientReadOnly_create
     NotarizationClient_create Date_now buildAndExecute
     Data_toString Data_toBytes].

Ltac head_of t :=
  lazymatch t with
  | ?f _ => head_of f
  | _ => t
  end.

(** Case analysis on every answer of the collaborators and on every test
    the script makes. *)
Ltac settle :=
  repeat
    (cbv beta iota zeta;
     match goal with
     | |- context [match ?t with pair _ _ => _ end] =>
         let h := head_of t in
         is_var h;
         let r := fresh "r" in
         let w := fresh "w" in
         destruct t as [r w];
         lazymatch type of r with
         | completion _ => destruct r
         | _ => idtac
         end
     | |- context [if String.eqb ?a ?b then _ else _] =>
         destruct (String.eqb_spec a b)
     | |- context [match locking ?m with Some _ => _ | None => _ end] =>
         destruct (locking m)
     end).

Lemma recording_is_transparent (World : Type) (sdk : Sdk World) (w : World) :
  fst (createLocked (spy sdk) (start (w, []))) = outcome sdk w
  /\ journal (snd (createLocked (spy sdk) (start (w, [])))) = trace sdk w.
Proof.
  destruct sdk as [gn gf kg kid fa gb roc cc dn bae dts dtb].
  unfold_run. settle; split; reflexivity.
Qed.

(** Case analysis on the membership of a noted call in an explicit list. *)
Ltac crack H :=
  cbn [In] in H;
  repeat lazymatch type of H with
         | _ \/ _ => destruct H as [H|H]; [try discriminate H|]
         | False => contradiction H
         end.

Ltac member := cbn [In]; repeat (first [left; reflexivity | right]).

(** X1. The address the faucet is asked to fund is the address whose
    balance is then queried: both are the [keyId] of the signer made from
    the key pair this run generated, the faucet host is the one of
    [networkId], the balance is asked of the ledger client built for
    [networkId], and a run asks the faucet exactly once. *)
Theorem funded_address_is_the_queried_address (World : Type)
    (sdk : Sdk World) (w : World) :
  (forall host recipient,
      In (faucet_received host recipient) (received sdk w) ->
      host = getFaucetHost sdk networkId
      /\ recipient = keyId sdk (generated_signer sdk w))
  /\ (forall client owner,
         In (getBalance_received client owner) (received sdk w) ->
         client = ledger_client sdk
         /\ owner = keyId sdk (generated_signer sdk w)
         /\ In (faucet_received (getFaucetHost sdk networkId) owner)
               (received sdk w))
  /\ count is_faucet_request (trace sdk w) = 1%nat.
Proof.
  destruct sdk as [gn gf kg kid fa gb roc cc dn bae dts dtb].
  unfold_run. settle;
    (split; [intros host recipient H; crack H; injection H as <- <-;
             split; reflexivity|]);
    (split; [intros client owner H; crack H; injection H as <- <-;
             repeat split; member | reflexivity]).
Qed.

(** X2. Recording changes neither the result nor the journal of a run, and
    in every run each collaborator is handed what the script got before:
    the read-only client is created from the ledger client built for
    [networkId]; the signing client is created from the read-only client
    that call returned and from the signer whose address was funded; the
    transaction is built and executed with the finished builder and with
    the signing client that [NotarizationClient.create] returned. *)
Theorem clients_are_handed_on (World : Type) (sdk : Sdk World) (w : World) :
  (fst (createLocked (spy sdk) (start (w, []))) = outcome sdk w
   /\ journal (snd (createLocked (spy sdk) (start (w, [])))) = trace sdk w)
  /\ (forall client,
         In (ReadOnly_create_received client) (received sdk w) ->
         client = ledger_client sdk)
  /\ (forall ro signer,
         In (Client_create_received ro signer) (received sdk w) ->
         signer = generated_signer sdk w
         /\ In (Settled NotarizationClientReadOnly_create_call
                  (Normal (VReadOnly ro))) (trace sdk w))
  /\ (forall b client,
         In (buildAndExecute_received b client) (received sdk w) ->
         In (Settled NotarizationClient_create_call (Normal (VClient client)))
            (trace sdk w)
         /\ In (Issued (buildAndExecute_call b)) (trace sdk w)
         /\ b_finished b = true).
Proof.
  split; [apply recording_is_transparent|].
  destruct sdk as [gn gf kg kid fa gb roc cc dn bae dts dtb].
  unfold_run. settle;
    (split; [intros client H; crack H; injection H as <-; reflexivity|]);
    (split; [intros ro signer H; crack H; injection H as <- <-;
             split; first [reflexivity | member]|]);
    intros b client H; crack H; injection H as <- <-;
    repeat split; first [reflexivity | member].
Qed.

(** ** More on the builder, the report and the outcome *)


(** X4. Once the submission is fulfilled, the whole report of lines 74-95,
    starting with the line that announces success, is logged before any
    assertion is evaluated, whatever the record looks like; the two closing
    lines follow only when all four assertions pass, and after a failed
    assertion the workflow logs nothing more. *)
Theorem record_is_reported_before_it_is_checked (World : Type)
    (sdk : Sdk World) (w : World) (b : NotarizationBuilder)
    (n : OnChainNotarization) :
  In (Settled (buildAndExecute_call b) (Normal (VNotarization n)))
     (trace sdk w) ->
  exists before after,
    trace sdk w = before ++ report sdk n ++ after
    /\ assertions before = []
    /\ hd_error (report sdk n)
       = Some (console_log
                 [VStr (newline
                        ++ "âœ… Locked notarization created successfully!")%string])
    /\ (outcome sdk w = Normal tt
        /\ after = [Asserted true; Asserted true; Asserted true; Asserted true]
                   ++ farewell
        \/ outcome sdk w = Throw AssertionError
           /\ count is_console_log after = 0%nat
           /\ last after (Asserted true) = Asserted false).
Proof.
  intros H.
  paths (createLocked_Run sdk w); find_event H;
    injection H as _ Hn; rewrite Hn in *; clear Hn;
    exists (connected sdk kp bal ro c ++ building now
            ++ submission now (Normal (VNotarization n)));
    eexists;
    (split; [unfold submitted; rewrite <- !app_assoc; reflexivity|]);
    (split; [reflexivity|]); (split; [reflexivity|]);
    first [ left; split; reflexivity
          | right; repeat split; reflexivity ].
Qed.

(** X5. [createLocked] completes normally exactly when a submission was
    fulfilled with a record that satisfies the four conditions; every step
    of the program has then happened. *)
Theorem normal_completion_means_validated_submission (World : Type)
    (sdk : Sdk World) (w : World) :
  (outcome sdk w = Normal tt <->
   exists b n,
     In (Settled (buildAndExecute_call b) (Normal (VNotarization n)))
        (trace sdk w)
     /\ method_is_Locked n /\ locking_is_present n
     /\ updateLock_is_UntilDestroyed n /\ transferLock_is_UntilDestroyed n)
  /\ (outcome sdk w = Normal tt -> steps (trace sdk w) = program_order).
Proof.
  split; [split|].
  - intros H. paths (createLocked_Run sdk w); try discriminate H.
    exists (built now), n. split; [phases; member|].
    unfold method_is_Locked, locking_is_present,
      updateLock_is_UntilDestroyed, transferLock_is_UntilDestroyed.
    repeat split; try assumption; try congruence; eauto.
  - intros (b & n & H & Hm & Hl & (l1 & E1 & Hu) & (l2 & E2 & Ht)).
    unfold method_is_Locked, locking_is_present in *.
    paths (createLocked_Run sdk w); find_event H; injection H as <- <-;
      try reflexivity; try contradiction; congruence.
  - intros H. paths (createLocked_Run sdk w); try discriminate H.
    reflexivity.
Qed.

(** X6. A failing run fails for one of three reasons and no other: a
    collaborator rejected a call with that very error, the balance was "0",
    or an assertion failed.  In particular the reads of
    [immutableMetadata.locking] on lines 102-103 never throw: the assertion
    of line 101 comes first, so a [TypeError] can only come from a
    collaborator. *)
Theorem failures_have_three_sources (World : Type) (sdk : Sdk World)
    (w : World) (e : error) :
  outcome sdk w = Throw e ->
  ((exists c, In (Settled c (Throw e)) (trace sdk w))
   \/ (e = Error "Balance is still 0"
       /\ exists owner bal,
            In (Settled (getBalance_call owner) (Normal (VBalance bal)))
               (trace sdk w)
            /\ totalBalance bal = "0"%string)
   \/ (e = AssertionError /\ In (Asserted false) (trace sdk w)))
  /\ (forall message,
         e = TypeError message ->
         exists c, In (Settled c (Throw e)) (trace sdk w)).
Proof.
  intros H.
  assert (G : (exists c, In (Settled c (Throw e)) (trace sdk w))
              \/ (e = Error "Balance is still 0"
                  /\ exists owner bal,
                       In (Settled (getBalance_call owner)
                             (Normal (VBalance bal))) (trace sdk w)
                       /\ totalBalance bal = "0"%string)
              \/ (e = AssertionError /\ In (Asserted false) (trace sdk w))).
  { paths (createLocked_Run sdk w); try discriminate H; injection H as <-.
    - left. eexists. phases. member.
    - left. eexists. phases. member.
    - right. left. split; [reflexivity|].
      exists (owner_of sdk kp), bal. split; [phases; member | assumption].
    - left. eexists. phases. member.
    - left. eexists. phases. member.
    - left. eexists. phases. member.
    - right. right. split; [reflexivity | phases; member].
    - right. right. split; [reflexivity | phases; member].
    - right. right. split; [reflexivity | phases; member].
    - right. right. split; [reflexivity | phases; member]. }
  split; [exact G|].
  intros message ->. destruct G as [G | [[G _] | [G _]]];
    [exact G | discriminate G | discriminate G].
Qed.

(** X8. The clock is read at most once, and exactly when the signing client
    has been created: the reading comes after that client is returned and
    before the first builder call, so the day of the delete lock starts
    after the waits for faucet and ledger, not when the process starts. *)
Theorem clock_is_read_once_after_the_clients (World : Type) (sdk : Sdk World)
    (w : World) :
  (count is_clock_read (trace sdk w) <= 1)%nat
  /\ (count is_clock_read (trace sdk w) = 1%nat <->
      exists c, In (Settled NotarizationClient_create_call
                      (Normal (VClient c))) (trace sdk w))
  /\ (forall now,
         In (Sync (Date_now_call now)) (trace sdk w) ->
         exists earlier later c,
           trace sdk w = earlier ++ Sync (Date_now_call now) :: later
           /\ In (Settled NotarizationClient_create_call (Normal (VClient c)))
                 earlier
           /\ count is_builder_call earlier = 0%nat
           /\ count is_clock_read later = 0%nat).
Proof.
  split; [|split].
  - paths (createLocked_Run sdk w); cbn; lia.
  - split.
    + intros H. paths (createLocked_Run sdk w); try discriminate H;
        exists c; phases; member.
    + intros (c0 & H). paths (createLocked_Run sdk w); find_event H;
        reflexivity.
  - intros now0 H. paths (createLocked_Run sdk w); find_event H;
      injection H as <-;
      exists (connected sdk kp bal ro c); eexists; exists c;
      (split; [phases; reflexivity|]);
      (split; [phases; member|]); split; reflexivity.
Qed.

(** X7. Later clock readings never give an earlier unlock time: over the
    whole range of time values the unlock time in seconds is monotone in the
    reading, follows it to within a second, and moves by exactly one second
    when the reading moves by 1000 milliseconds. *)
Theorem unlock_time_is_monotone (now1 now2 : Z) :
  (Z.abs now1 <= max_time_value -> Z.abs now2 <= max_time_value ->
   now1 <= now2 ->
   exists s1 s2,
     delete_unlock_at now1 = Fin s1 0
     /\ delete_unlock_at now2 = Fin s2 0
     /\ s1 <= s2
     /\ now2 - now1 - 999 <= 1000 * (s2 - s1) <= now2 - now1 + 999
     /\ (now2 = now1 + 1000 -> s2 = s1 + 1))%Z.
Proof.
  intros H1 H2 Hle.
  exists ((now1 + 86400500) / 1000)%Z, ((now2 + 86400500) / 1000)%Z.
  split; [apply delete_unlock_at_value; exact H1|].
  split; [apply delete_unlock_at_value; exact H2|].
  pose proof (Z.div_mod (now1 + 86400500) 1000 ltac:(lia)).
  pose proof (Z.mod_pos_bound (now1 + 86400500) 1000 ltac:(lia)).
  pose proof (Z.div_mod (now2 + 86400500) 1000 ltac:(lia)).
  pose proof (Z.mod_pos_bound (now2 + 86400500) 1000 ltac:(lia)).
  repeat split; try lia.
Qed.

(** ** The funded client as a function of its own *)

(** X9. Whatever ledger client it is given and whatever ran before,
    [getFundedNotarizationClient] returns a client only after four awaited
    calls, the balance it read being different from "0", and the client it
    returns is the one [NotarizationClient.create] returned; it adds to the
    journal without touching what is there, and leaves [process.exitCode]
    alone. *)
Theorem getFundedNotarizationClient_returns_the_created_client
    (World : Type) (sdk : Sdk World) (client : IotaClient)
    (p : Process World) (c : NotarizationClient) :
  fst (getFundedNotarizationClient sdk client p) = Normal c ->
  exists j owner bal ro,
    journal (snd (getFundedNotarizationClient sdk client p)) = journal p ++ j
    /\ exitCode (snd (getFundedNotarizationClient sdk client p)) = exitCode p
    /\ In (Settled (getBalance_call owner) (Normal (VBalance bal))) j
    /\ totalBalance bal <> "0"%string
    /\ In (Settled NotarizationClientReadOnly_create_call
             (Normal (VReadOnly ro))) j
    /\ In (Settled NotarizationClient_create_call (Normal (VClient c))) j
    /\ count is_issued j = 4%nat
    /\ count is_builder_call j = 0%nat.
Proof.
  destruct sdk as [gn gf kg kid fa gb roc cc dn bae dts dtb].
  destruct p as [w0 j0 x0].
  cbv beta iota zeta delta
    [getFundedNotarizationClient requestFunds balance_check log sync ask
     await emit bind ret throw world journal exitCode fst snd
     getNetwork_url getFaucetHost Ed25519Keypair_generate keyId
     requestIotaFromFaucetV0 getBalance NotarizationClientReadOnly_create
     NotarizationClient_create Date_now buildAndExecute].
  settle; intros H; try discriminate H; injection H as <-.
  eexists; eexists; eexists; eexists.
  split; [rewrite <- !app_assoc; cbn [app]; reflexivity|].
  split; [reflexivity|]. split; [member|]. split; [eassumption|].
  split; [member|]. split; [member|]. split; reflexivity.
Qed.

(** ** The state bytes in the report *)

Lemma decimal_reads_back (b : byte) : undecimal (decimal b) = Some b.
Proof. destruct b; reflexivity. Qed.

Lemma decimal_shape (b : byte) :
  has_comma (decimal b) = false /\ decimal b <> EmptyString.
Proof. destruct b; (split; [reflexivity | discriminate]). Qed.

Lemma decimal_injective (a b : byte) : decimal a = decimal b -> a = b.
Proof.
  intros H. pose proof (decimal_reads_back a) as Ha.
  rewrite H, decimal_reads_back in Ha. congruence.
Qed.

Lemma has_comma_append (s t : string) :
  has_comma (s ++ t) = has_comma s || has_comma t.
Proof.
  induction s as [|c s IH]; cbn [String.append has_comma];
    [reflexivity|]. rewrite IH. apply orb_assoc.
Qed.

Lemma first_comma_splits (s1 s2 t1 t2 : string) :
  has_comma s1 = false -> has_comma s2 = false ->
  (s1 ++ "," ++ t1 = s2 ++ "," ++ t2)%string -> s1 = s2 /\ t1 = t2.
Proof.
  revert s2. induction s1 as [|c s1 IH]; intros [|d s2] H1 H2 E;
    cbn [String.append has_comma] in *.
  - injection E as E. auto.
  - injection E as <- E. cbn in H2. discriminate H2.
  - injection E as -> E. cbn in H1. discriminate H1.
  - injection E as <- E.
    apply orb_false_elim in H1. apply orb_false_elim in H2.
    destruct (IH s2 (proj2 H1) (proj2 H2) E) as [-> ->]. auto.
Qed.

Lemma Uint8Array_toString_cons (b : byte) (rest : list byte) :
  Uint8Array_toString (b :: rest)
  = match rest with
    | [] => decimal b
    | _ :: _ => (decimal b ++ "," ++ Uint8Array_toString rest)%string
    end.
Proof. destruct rest; reflexivity. Qed.

(** X10. The byte list of the state line can be read back from it: two
    byte arrays are rendered the same (decimal elements joined by commas)
    only if they are the same array, and only the empty array is rendered
    as the empty string. *)
Theorem Uint8Array_toString_injective (a b : list byte) :
  Uint8Array_toString a = Uint8Array_toString b -> a = b.
Proof.
  revert b. induction a as [|x a IH]; intros [|y b] E.
  - reflexivity.
  - exfalso. rewrite Uint8Array_toString_cons in E.
    destruct (decimal_shape y) as [_ Hy].
    destruct b; cbn [Uint8Array_toString] in E;
      destruct (decimal y); [contradiction | discriminate E
                            | contradiction | discriminate E].
  - exfalso. rewrite Uint8Array_toString_cons in E.
    destruct (decimal_shape x) as [_ Hx].
    destruct a; cbn [Uint8Array_toString] in E;
      destruct (decimal x); [contradiction | discriminate E
                            | contradiction | discriminate E].
  - rewrite !Uint8Array_toString_cons in E.
    destruct (decimal_shape x) as [Cx _]. destruct (decimal_shape y) as [Cy _].
    destruct a as [|x' a]; destruct b as [|y' b].
    + f_equal. apply decimal_injective, E.
    + exfalso. rewrite E, has_comma_append in Cx.
      apply orb_false_elim in Cx. destruct Cx as [_ Cx]. discriminate Cx.
    + exfalso. rewrite <- E, has_comma_append in Cy.
      apply orb_false_elim in Cy. destruct Cy as [_ Cy]. discriminate Cy.
    + destruct (first_comma_splits _ _ _ _ Cx Cy E) as [Ed Er].
      f_equal; [apply decimal_injective, Ed | apply IH, Er].
Qed.

(** ** The further theorems at concrete runs *)

Section MoreWitnesses.

Local Open Scope string_scope.

Lemma funded_address_is_the_queried_address_witness :
  In (getBalance_received (ledger_client (mock_sdk healthy)) "0xa11ce")
     (received (mock_sdk healthy) tt)
  /\ "0xa11ce" = keyId (mock_sdk healthy) (generated_signer (mock_sdk healthy) tt)
  /\ In (faucet_received (getFaucetHost (mock_sdk healthy) networkId) "0xa11ce")
        (received (mock_sdk healthy) tt).
Proof.
  assert (H : In (getBalance_received (ledger_client (mock_sdk healthy))
                    "0xa11ce")
                 (received (mock_sdk healthy) tt)) by in_journal.
  destruct (@funded_address_is_the_queried_address unit (mock_sdk healthy) tt)
    as (_ & G & _).
  destruct (G _ _ H) as (_ & G2 & G3).
  split; [exact H|]. split; [exact G2 | exact G3].
Defined.

Lemma clients_are_handed_on_witness :
  In (buildAndExecute_received submitted_builder a_client)
     (received (mock_sdk healthy) tt)
  /\ In (Settled NotarizationClient_create_call (Normal (VClient a_client)))
        (trace (mock_sdk healthy) tt)
  /\ In (Issued (buildAndExecute_call submitted_builder))
        (trace (mock_sdk healthy) tt)
  /\ In (Client_create_received (readOnly a_client)
           (generated_signer (mock_sdk healthy) tt))
        (received (mock_sdk healthy) tt)
  /\ In (Settled NotarizationClientReadOnly_create_call
           (Normal (VReadOnly (readOnly a_client))))
        (trace (mock_sdk healthy) tt).
Proof.
  assert (H1 : In (buildAndExecute_received submitted_builder a_client)
                  (received (mock_sdk healthy) tt)) by in_journal.
  assert (H2 : In (Client_create_received (readOnly a_client)
                     (generated_signer (mock_sdk healthy) tt))
                  (received (mock_sdk healthy) tt)) by in_journal.
  destruct (@clients_are_handed_on unit (mock_sdk healthy) tt)
    as (_ & _ & G2 & G3).
  destruct (G3 _ _ H1) as (G31 & G32 & _).
  destruct (G2 _ _ H2) as (_ & G22).
  split; [exact H1|]. split; [exact G31|]. split; [exact G32|].
  split; [exact H2 | exact G22].
Defined.


Lemma record_is_reported_before_it_is_checked_witness :
  In (Settled (buildAndExecute_call submitted_builder)
        (Normal (VNotarization dynamic_returned)))
     (trace (mock_sdk dynamic_record) tt)
  /\ exists before after,
       trace (mock_sdk dynamic_record) tt
       = (before ++ report (mock_sdk dynamic_record) dynamic_returned
          ++ after)%list
       /\ assertions before = [].
Proof.
  assert (H : In (Settled (buildAndExecute_call submitted_builder)
                    (Normal (VNotarization dynamic_returned)))
                 (trace (mock_sdk dynamic_record) tt)) by in_journal.
  split; [exact H|].
  destruct (@record_is_reported_before_it_is_checked unit
              (mock_sdk dynamic_record) tt submitted_builder
              dynamic_returned H) as (before & after & E & A & _).
  exists before, after. split; [exact E | exact A].
Defined.

Lemma normal_completion_means_validated_submission_witness :
  outcome (mock_sdk healthy) tt = Normal tt
  /\ steps (trace (mock_sdk healthy) tt) = program_order
  /\ exists b n,
       In (Settled (buildAndExecute_call b) (Normal (VNotarization n)))
          (trace (mock_sdk healthy) tt)
       /\ method_is_Locked n.
Proof.
  assert (H : outcome (mock_sdk healthy) tt = Normal tt)
    by (vm_compute; reflexivity).
  destruct (@normal_completion_means_validated_submission unit
              (mock_sdk healthy) tt) as (G1 & G2).
  destruct (proj1 G1 H) as (b & n & Hin & Hm & _).
  split; [exact H|]. split; [exact (G2 H)|].
  exists b, n. split; [exact Hin | exact Hm].
Defined.

Lemma failures_have_three_sources_witness :
  outcome (mock_sdk node_down) tt = Throw (Error "fetch failed")
  /\ ((exists c, In (Settled c (Throw (Error "fetch failed")))
                    (trace (mock_sdk node_down) tt))
      \/ (Error "fetch failed" = Error "Balance is still 0"
          /\ exists owner bal,
               In (Settled (getBalance_call owner) (Normal (VBalance bal)))
                  (trace (mock_sdk node_down) tt)
               /\ totalBalance bal = "0")
      \/ (Error "fetch failed" = AssertionError
          /\ In (Asserted false) (trace (mock_sdk node_down) tt))).
Proof.
  assert (H : outcome (mock_sdk node_down) tt = Throw (Error "fetch failed"))
    by (vm_compute; reflexivity).
  split; [exact H|].
  exact (proj1 (@failures_have_three_sources unit (mock_sdk node_down) tt
                  (Error "fetch failed") H)).
Defined.

Lemma clock_is_read_once_after_the_clients_witness :
  In (Sync (Date_now_call 1762084800123)) (trace (mock_sdk healthy) tt)
  /\ count is_clock_read (trace (mock_sdk healthy) tt) = 1%nat
  /\ exists earlier later c,
       trace (mock_sdk healthy) tt
       = (earlier ++ Sync (Date_now_call 1762084800123) :: later)%list
       /\ In (Settled NotarizationClient_create_call (Normal (VClient c)))
             earlier
       /\ count is_builder_call earlier = 0%nat.
Proof.
  assert (H : In (Sync (Date_now_call 1762084800123))
                 (trace (mock_sdk healthy) tt)) by in_journal.
  assert (C : exists c, In (Settled NotarizationClient_create_call
                              (Normal (VClient c)))
                           (trace (mock_sdk healthy) tt))
    by (exists a_client; in_journal).
  destruct (@clock_is_read_once_after_the_clients unit (mock_sdk healthy) tt)
    as (_ & G2 & G3).
  destruct (G3 _ H) as (earlier & later & c & E & Hc & Hb & _).
  split; [exact H|]. split; [exact (proj2 G2 C)|].
  exists earlier, later, c. split; [exact E|]. split; [exact Hc | exact Hb].
Defined.

Lemma unlock_time_is_monotone_witness :
  (Z.abs 1762084800123 <= max_time_value)%Z
  /\ (Z.abs 1762084801123 <= max_time_value)%Z
  /\ (1762084800123 <= 1762084801123)%Z
  /\ exists s1 s2,
       delete_unlock_at 1762084800123 = Fin s1 0
       /\ delete_unlock_at 1762084801123 = Fin s2 0
       /\ (s1 <= s2)%Z
       /\ s2 = (s1 + 1)%Z.
Proof.
  assert (H1 : (Z.abs 1762084800123 <= max_time_value)%Z)
    by (vm_compute; discriminate).
  assert (H2 : (Z.abs 1762084801123 <= max_time_value)%Z)
    by (vm_compute; discriminate).
  assert (H3 : (1762084800123 <= 1762084801123)%Z)
    by (vm_compute; discriminate).
  destruct (@unlock_time_is_monotone 1762084800123 1762084801123 H1 H2 H3)
    as (s1 & s2 & E1 & E2 & Hle & _ & Hstep).
  split; [exact H1|]. split; [exact H2|]. split; [exact H3|].
  exists s1, s2. split; [exact E1|]. split; [exact E2|].
  split; [exact Hle | apply Hstep; reflexivity].
Defined.

Lemma getFundedNotarizationClient_returns_the_created_client_witness :
  fst (getFundedNotarizationClient (mock_sdk healthy)
         (ledger_client (mock_sdk healthy)) (start tt))
  = Normal a_client
  /\ exists j owner bal ro,
       journal (snd (getFundedNotarizationClient (mock_sdk healthy)
                       (ledger_client (mock_sdk healthy)) (start tt)))
       = (journal (start tt) ++ j)%list
       /\ In (Settled (getBalance_call owner) (Normal (VBalance bal))) j
       /\ totalBalance bal <> "0"
       /\ In (Settled NotarizationClientReadOnly_create_call
                (Normal (VReadOnly ro))) j
       /\ In (Settled NotarizationClient_create_call
                (Normal (VClient a_client))) j.
Proof.
  assert (H : fst (getFundedNotarizationClient (mock_sdk healthy)
                     (ledger_client (mock_sdk healthy)) (start tt))
              = Normal a_client) by (vm_compute; reflexivity).
  split; [exact H|].
  destruct (@getFundedNotarizationClient_returns_the_created_client unit
              (mock_sdk healthy) (ledger_client (mock_sdk healthy))
              (start tt) a_client H)
    as (j & owner & bal & ro & E & _ & Hb & Hz & Hr & Hc & _).
  exists j, owner, bal, ro.
  split; [exact E|]. split; [exact Hb|]. split; [exact Hz|].
  split; [exact Hr | exact Hc].
Defined.

Lemma Uint8Array_toString_injective_witness :
  Uint8Array_toString [x0e; xff; x00] = "14,255,0"
  /\ Uint8Array_toString (list_byte_of_string
                            (String (ascii_of_nat 14)
                               (String (ascii_of_nat 255)
                                  (String (ascii_of_nat 0) EmptyString))))
     = Uint8Array_toString [x0e; xff; x00]
  /\ list_byte_of_string
       (String (ascii_of_nat 14)
          (String (ascii_of_nat 255) (String (ascii_of_nat 0) EmptyString)))
     = [x0e; xff; x00].
Proof.
  assert (H : Uint8Array_toString
                (list_byte_of_string
                   (String (ascii_of_nat 14)
                      (String (ascii_of_nat 255)
                         (String (ascii_of_nat 0) EmptyString))))
              = Uint8Array_toString [x0e; xff; x00]) by reflexivity.
  split; [reflexivity|]. split; [exact H|].
  exact (@Uint8Array_toString_injective _ _ H).
Defined.

End MoreWitnesses.
